(** * SDG 2 dashboard: the data generator and the derived metrics

    A shallow embedding of [sdg2_app.py]: the generator
    [generate_sdg2_data] and the derivations the views compute from its four
    tables (pivot, annual growth rate, progress tracking, radar values and
    the ranking table).

    Conventions of the embedding.
    - A Python [float] is a real number.  The few operations of the source
      whose IEEE result can be infinite or NaN on finite arguments (a
      division, a fractional power, the mean of an empty selection) return
      [option R], with [None] for a non-finite result.
    - A DataFrame is the list of its rows, in row order; a row is a record
      with the column names of the source.
    - The module-level generator [random] is a stream of the future results
      of [random.random()], threaded through the code in program order.
    - Where a property is about the rounding or the overflow of a float, the
      values are binary64 floats with the IEEE 754 operations (the section on
      the growth rate in binary64 arithmetic). *)

From Stdlib Require Import List Finite String ZArith Reals Lra Lia Bool
  Permutation Sorted.
From Stdlib Require Import PrimFloat FloatAxioms.
Import ListNotations.

Local Open Scope string_scope.
Local Open Scope list_scope.
Local Open Scope Z_scope.
Local Open Scope R_scope.

(** ** The random source *)

Module Rand.

(** The state of [random]: output [n] of the stream is the [n]-th next
    result of [random.random()]. *)
Definition rng := nat -> R.

Definition M (A : Type) : Type := rng -> A * rng.

Definition ret {A} (a : A) : M A := fun s => (a, s).

Definition bind {A B} (m : M A) (k : A -> M B) : M B :=
  fun s => let (a, s') := m s in k a s'.

(** [random.random()]: the head of the stream; the state moves on. *)
Definition random : M R := fun s => (s 0%nat, fun n => s (S n)).

(** [random.uniform(a, b)] is [a + (b - a) * self.random()]. *)
Definition uniform (a b : R) : M R :=
  bind random (fun u => ret (a + (b - a) * u)).

(** [random.random()] returns a float of the half-open interval [0, 1). *)
Definition valid (s : rng) : Prop := forall n, 0 <= s n < 1.

Definition run {A} (m : M A) (s : rng) : A := fst (m s).

End Rand.

Notation "x <- m ;; k" := (Rand.bind m (fun x => k))
  (at level 61, m at next level, right associativity).

(** [for x in xs: body], where the body appends rows to one list: the rows
    appended during the whole loop, in order. *)
Fixpoint for_each {A B} (xs : list A) (body : A -> Rand.M (list B))
  : Rand.M (list B) :=
  match xs with
  | [] => Rand.ret []
  | x :: xs' =>
      rows <- body x ;;
      rest <- for_each xs' body ;;
      Rand.ret (rows ++ rest)
  end.

(** ** Rows of the four tables *)

Record UndernourishmentRow := {
  u_Year : Z;
  u_Region : string;
  Undernourishment_Rate : R
}.

Record ProductionRow := {
  p_Year : Z;
  p_Crop : string;
  Production : R;
  Unit : string
}.

Record FoodSecurityRow := {
  s_Year : Z;
  s_Country : string;
  Food_Security_Level : R;
  Population_Affected : R
}.

Record NutritionRow := {
  n_Year : Z;
  n_Region : string;
  n_Indicator : string;
  Rate : R
}.

(** ** [generate_sdg2_data] *)

(** [list(range(2015, 2024))] *)
Definition years : list Z :=
  [2015; 2016; 2017; 2018; 2019; 2020; 2021; 2022; 2023]%Z.

Definition regions : list string :=
  ["Sub-Saharan Africa"; "Asia"; "Latin America"; "North America"; "Europe";
   "Oceania"].

Definition crops : list string :=
  ["Cereals"; "Fruits"; "Vegetables"; "Meat"; "Dairy"; "Fish"].

Definition countries : list string :=
  ["Kenya"; "India"; "Brazil"; "Nigeria"; "Bangladesh"; "Ethiopia";
   "Tanzania"; "Pakistan"; "Afghanistan"; "Madagascar"].

Definition indicators : list string := ["Stunting"; "Wasting"; "Overweight"].

(** A dict literal with string keys, as the list of its items.  Subscripting
    with a key that is absent raises [KeyError]; the generator subscripts
    only with the keys it iterates over, so the lookup takes a default that
    is never reached. *)
Fixpoint subscript {V} (d : list (string * V)) (k : string) (default : V) : V :=
  match d with
  | [] => default
  | (k', v) :: d' => if String.eqb k k' then v else subscript d' k default
  end.

Definition base_rate : list (string * R) :=
  [("Sub-Saharan Africa", 25); ("Asia", 12); ("Latin America", 8);
   ("North America", 3); ("Europe", 2); ("Oceania", 4)].

Definition base_rates : list (string * list (string * R)) :=
  [("Stunting",
     [("Sub-Saharan Africa", 35); ("Asia", 25); ("Latin America", 15);
      ("North America", 5); ("Europe", 3); ("Oceania", 8)]);
   ("Wasting",
     [("Sub-Saharan Africa", 8); ("Asia", 12); ("Latin America", 4);
      ("North America", 2); ("Europe", 1); ("Oceania", 3)]);
   ("Overweight",
     [("Sub-Saharan Africa", 5); ("Asia", 8); ("Latin America", 12);
      ("North America", 15); ("Europe", 13); ("Oceania", 18)])].

(** The body of the undernourishment loop for one region and year. *)
Definition undernourishment_row (region : string) (year : Z)
  : Rand.M (list UndernourishmentRow) :=
  let trend := -0.5 * IZR (year - 2015) in
  noise <- Rand.uniform (-1) 1 ;;
  let rate := Rmax 0 (subscript base_rate region 0 + trend + noise) in
  Rand.ret [ {| u_Year := year; u_Region := region;
                Undernourishment_Rate := rate |} ].

Definition undernourishment_data : Rand.M (list UndernourishmentRow) :=
  for_each regions (fun region =>
    for_each years (fun year => undernourishment_row region year)).

(** The body of the production loop for one crop and year;
    [base_production] was drawn once for the crop. *)
Definition production_row (crop : string) (base_production : R) (year : Z)
  : Rand.M (list ProductionRow) :=
  let growth := powerRZ 1.02 (year - 2015) in
  noise <- Rand.uniform 0.95 1.05 ;;
  let production := base_production * growth * noise in
  Rand.ret [ {| p_Year := year; p_Crop := crop; Production := production;
                Unit := "Million Tonnes" |} ].

Definition food_production_data : Rand.M (list ProductionRow) :=
  for_each crops (fun crop =>
    base_production <- Rand.uniform 100 500 ;;
    for_each years (fun year => production_row crop base_production year)).

(** [max(1, min(4, base_level + trend + noise))], with the trend of the
    year. *)
Definition food_security_level (base_level noise : R) (year : Z) : R :=
  let trend := -0.05 * IZR (year - 2015) in
  Rmax 1 (Rmin 4 (base_level + trend + noise)).

(** The body of the food-security loop: three draws, in program order
    (the base level, the noise of the level, the affected population). *)
Definition food_security_row (country : string) (year : Z)
  : Rand.M (list FoodSecurityRow) :=
  base_level <- Rand.uniform 1.5 3.5 ;;
  noise <- Rand.uniform (-0.2) 0.2 ;;
  let level := food_security_level base_level noise year in
  affected <- Rand.uniform 5 40 ;;
  Rand.ret [ {| s_Year := year; s_Country := country;
                Food_Security_Level := level;
                Population_Affected := affected |} ].

Definition food_security_data : Rand.M (list FoodSecurityRow) :=
  for_each countries (fun country =>
    for_each years (fun year => food_security_row country year)).

(** The body of the nutrition loop for one region, indicator and year. *)
Definition nutrition_row (region indicator : string) (year : Z)
  : Rand.M (list NutritionRow) :=
  let trend_direction :=
    if negb (String.eqb indicator "Overweight") then -0.3 else 0.2 in
  let trend := trend_direction * IZR (year - 2015) in
  noise <- Rand.uniform (-0.5) 0.5 ;;
  let rate :=
    Rmax 0 (subscript (subscript base_rates indicator []) region 0
            + trend + noise) in
  Rand.ret [ {| n_Year := year; n_Region := region;
                n_Indicator := indicator; Rate := rate |} ].

Definition nutrition_data : Rand.M (list NutritionRow) :=
  for_each regions (fun region =>
    for_each indicators (fun indicator =>
      for_each years (fun year => nutrition_row region indicator year))).

(** The four DataFrames the function returns. *)
Record Tables := {
  undernourishment_df : list UndernourishmentRow;
  production_df : list ProductionRow;
  security_df : list FoodSecurityRow;
  nutrition_df : list NutritionRow
}.

Definition generate_sdg2_data : Rand.M Tables :=
  u <- undernourishment_data ;;
  p <- food_production_data ;;
  f <- food_security_data ;;
  n <- nutrition_data ;;
  Rand.ret {| undernourishment_df := u; production_df := p;
              security_df := f; nutrition_df := n |}.

(** The (year, categorical-key) of a row. *)
Definition u_key (r : UndernourishmentRow) := (u_Region r, u_Year r).
Definition p_key (r : ProductionRow) := (p_Crop r, p_Year r).
Definition s_key (r : FoodSecurityRow) := (s_Country r, s_Year r).
Definition n_key (r : NutritionRow) := (n_Region r, n_Indicator r, n_Year r).

(** ** Errors and non-finite floats *)

(** What a derivation can raise: [IndexError] ([.iloc[0]] on an empty
    selection) and [ValueError] ([pivot] on duplicate entries) are the
    exceptions of the library calls the source makes.  [MissingKeyError] and
    [InsufficientDataError] are the named errors of the design document; the
    source defines neither and has no [raise] statement. *)
Inductive exn : Set :=
| IndexError
| ValueError
| MissingKeyError
| InsufficientDataError.

Inductive result (A : Type) : Type :=
| Ok (a : A)
| Raise (e : exn).

Arguments Ok {A} a.
Arguments Raise {A} e.

Definition rbind {A B} (r : result A) (k : A -> result B) : result B :=
  match r with
  | Ok a => k a
  | Raise e => Raise e
  end.

Notation "x <-- r ;;; k" := (rbind r (fun x => k))
  (at level 61, r at next level, right associativity).

(** [Series.iloc[0]]: the first element; [IndexError] on an empty Series. *)
Definition iloc0 {A} (l : list A) : result A :=
  match l with
  | [] => Raise IndexError
  | x :: _ => Ok x
  end.

(** [a / b] on NumPy floats: a division by zero gives an infinity or NaN
    (with a warning), no exception. *)
Definition float_div (a b : R) : option R :=
  if Req_dec_T b 0 then None else Some (a / b).

(** [x ** (1/8)] on a NumPy float: NaN for a negative base. *)
Definition pow_eighth (x : R) : option R :=
  if Rlt_dec 0 x then Some (Rpower x (1 / 8))
  else if Req_dec_T x 0 then Some 0
  else None.

(** Subtraction and the test [> 0] propagate NaN: a comparison with NaN is
    false. *)
Definition float_sub (a b : option R) : option R :=
  match a, b with
  | Some x, Some y => Some (x - y)
  | _, _ => None
  end.

Definition float_gt0 (a : option R) : bool :=
  match a with
  | Some x => if Rlt_dec 0 x then true else false
  | None => false
  end.

Fixpoint Rsum (l : list R) : R :=
  match l with
  | [] => 0
  | x :: l' => x + Rsum l'
  end.

(** [Series.mean()]: NaN on an empty Series. *)
Definition mean (l : list R) : option R :=
  match l with
  | [] => None
  | _ :: _ => Some (Rsum l / INR (List.length l))
  end.

(** [Series.unique()]: the distinct values in order of first appearance. *)
Fixpoint unique (l : list string) : list string :=
  match l with
  | [] => []
  | x :: l' => x :: filter (fun y => negb (String.eqb y x)) (unique l')
  end.

(** ** Food Production view: annual growth rate *)

(** The body of the [growth_rates] loop for one crop. *)
Definition growth_rate (production_df : list ProductionRow) (crop : string)
  : result (option R) :=
  let crop_data :=
    filter (fun r => String.eqb (p_Crop r) crop) production_df in
  first_year <--
    iloc0 (map Production
             (filter (fun r => Z.eqb (p_Year r) 2015) crop_data)) ;;;
  last_year <--
    iloc0 (map Production
             (filter (fun r => Z.eqb (p_Year r) 2023) crop_data)) ;;;
  Ok (option_map (fun q => (q - 1) * 100)
        (match float_div last_year first_year with
         | Some ratio => pow_eighth ratio
         | None => None
         end)).

(** The loop over [production_df['Crop'].unique()]; an exception ends it. *)
Fixpoint growth_rows (production_df : list ProductionRow)
  (crop_list : list string) : result (list (string * option R)) :=
  match crop_list with
  | [] => Ok []
  | crop :: rest =>
      g <-- growth_rate production_df crop ;;;
      gs <-- growth_rows production_df rest ;;;
      Ok ((crop, g) :: gs)
  end.

Definition growth_rates (production_df : list ProductionRow)
  : result (list (string * option R)) :=
  growth_rows production_df (unique (map p_Crop production_df)).

(** The formula of the design document for [AnnualGrowthRate], on the same
    float operations: [((v2023 / v2015) ** (1/8) - 1) * 100]. *)
Definition annual_growth_formula (value_2015 value_2023 : R) : option R :=
  match float_div value_2023 value_2015 with
  | Some ratio =>
      match pow_eighth ratio with
      | Some root => Some ((root - 1) * 100)
      | None => None
      end
  | None => None
  end.

(** ** Nutrition Status view: progress tracking *)

Record ProgressRow := {
  pr_Indicator : string;
  Change : option R;
  Direction : string;
  Target : string
}.

(** The body of the [progress_data] loop for one indicator. *)
Definition progress_row (nutrition_df : list NutritionRow) (indicator : string)
  : ProgressRow :=
  let indicator_data :=
    filter (fun r => String.eqb (n_Indicator r) indicator) nutrition_df in
  let start_value :=
    mean (map Rate (filter (fun r => Z.eqb (n_Year r) 2015) indicator_data)) in
  let end_value :=
    mean (map Rate (filter (fun r => Z.eqb (n_Year r) 2023) indicator_data)) in
  let (change, target_direction) :=
    if String.eqb indicator "Overweight"
    then (float_sub end_value start_value, "Decrease")
    else (float_sub start_value end_value, "Decrease") in
  {| pr_Indicator := indicator;
     Change := change;
     Direction := if float_gt0 change then "Improving" else "Worsening";
     Target := target_direction |}.

Definition progress_data (nutrition_df : list NutritionRow) : list ProgressRow :=
  map (progress_row nutrition_df) (unique (map n_Indicator nutrition_df)).

(** The mean rate of an indicator in one year, as the loop body selects it. *)
Definition mean_rate (nutrition_df : list NutritionRow) (indicator : string)
  (year : Z) : option R :=
  mean (map Rate
          (filter (fun r => Z.eqb (n_Year r) year)
             (filter (fun r => String.eqb (n_Indicator r) indicator)
                nutrition_df))).

(** ** Hunger and Nutrition views: pivot *)

(** The result of [DataFrame.pivot]: the row labels, the column labels and
    the cells, row by row; a cell without entry in the input is NaN
    ([None]). *)
Record Matrix (I C : Type) := {
  index : list I;
  columns : list C;
  values : list (list (option R))
}.

Arguments index {I C} m.
Arguments columns {I C} m.
Arguments values {I C} m.

(** The labels of an axis of the result: distinct and sorted. *)
Fixpoint insert_label {K} (eqb ltb : K -> K -> bool) (x : K) (l : list K)
  : list K :=
  match l with
  | [] => [x]
  | y :: l' =>
      if eqb x y then l
      else if ltb x y then x :: l
      else y :: insert_label eqb ltb x l'
  end.

Definition sorted_labels {K} (eqb ltb : K -> K -> bool) (l : list K) : list K :=
  fold_right (insert_label eqb ltb) [] l.

Section Pivot.

Context {I C : Type}.
Variables (I_eqb I_ltb : I -> I -> bool) (C_eqb C_ltb : C -> C -> bool).

Definition key_eqb (k k' : I * C) : bool :=
  I_eqb (fst k) (fst k') && C_eqb (snd k) (snd k').

Fixpoint has_duplicates (keys : list (I * C)) : bool :=
  match keys with
  | [] => false
  | k :: keys' => existsb (key_eqb k) keys' || has_duplicates keys'
  end.

Fixpoint cell (entries : list (I * C * R)) (k : I * C) : option R :=
  match entries with
  | [] => None
  | (k', v) :: entries' =>
      if key_eqb k' k then Some v else cell entries' k
  end.

(** [pivot(index=, columns=, values=)] on the (index, column, value)
    triples of the rows: [ValueError] ("Index contains duplicate entries,
    cannot reshape") when two rows share index and column. *)
Definition pivot (entries : list (I * C * R)) : result (Matrix I C) :=
  if has_duplicates (map fst entries) then Raise ValueError
  else
    let idx := sorted_labels I_eqb I_ltb (map (fun e => fst (fst e)) entries) in
    let cols := sorted_labels C_eqb C_ltb (map (fun e => snd (fst e)) entries) in
    Ok {| index := idx;
          columns := cols;
          values := map (fun i => map (fun c => cell entries (i, c)) cols) idx |}.

End Pivot.

(** [undernourishment_df.pivot(index='Region', columns='Year',
    values='Undernourishment_Rate')] *)
Definition pivot_data (undernourishment_df : list UndernourishmentRow)
  : result (Matrix string Z) :=
  pivot String.eqb String.ltb Z.eqb Z.ltb
    (map (fun r => (u_Region r, u_Year r, Undernourishment_Rate r))
       undernourishment_df).

(** [latest_nutrition.pivot(index='Region', columns='Indicator',
    values='Rate')], with [latest_nutrition] the rows of 2023. *)
Definition nutrition_pivot (nutrition_df : list NutritionRow)
  : result (Matrix string string) :=
  let latest_nutrition := filter (fun r => Z.eqb (n_Year r) 2023) nutrition_df in
  pivot String.eqb String.ltb String.eqb String.ltb
    (map (fun r => (n_Region r, n_Indicator r, Rate r)) latest_nutrition).

(** A matrix with [rows] x [cols] cells, none of them NaN. *)
Definition complete_matrix {I C} (rows cols : nat) (m : Matrix I C) : Prop :=
  List.length (index m) = rows /\
  List.length (columns m) = cols /\
  List.length (values m) = rows /\
  Forall (fun row => List.length row = cols /\ Forall (fun c => c <> None) row)
    (values m).

(** ** Regional Comparison view *)

Definition year_undernourishment (undernourishment_df : list UndernourishmentRow)
  (selected_year : Z) : list UndernourishmentRow :=
  filter (fun r => Z.eqb (u_Year r) selected_year) undernourishment_df.

Definition year_nutrition (nutrition_df : list NutritionRow) (selected_year : Z)
  : list NutritionRow :=
  filter (fun r => Z.eqb (n_Year r) selected_year) nutrition_df.

(** The two radar axes computed from the data, for one selected region. *)
Definition undernourishment_val (year_und : list UndernourishmentRow)
  (region : string) : result R :=
  rate <--
    iloc0 (map Undernourishment_Rate
             (filter (fun r => String.eqb (u_Region r) region) year_und)) ;;;
  Ok (100 - rate * 3).

Definition stunting_val (year_nut : list NutritionRow) (region : string)
  : result R :=
  rate <--
    iloc0 (map Rate
             (filter (fun r => String.eqb (n_Region r) region
                               && String.eqb (n_Indicator r) "Stunting")
                year_nut)) ;;;
  Ok (100 - rate * 2).

(** The list [values] of one radar trace; the last two axes are draws of
    [np.random.uniform], NumPy's own generator. *)
Definition radar_values (year_und : list UndernourishmentRow)
  (year_nut : list NutritionRow) (region : string)
  : Rand.M (result (list R)) :=
  match undernourishment_val year_und region with
  | Raise e => Rand.ret (Raise e)
  | Ok u_val =>
      match stunting_val year_nut region with
      | Raise e => Rand.ret (Raise e)
      | Ok s_val =>
          food_security_val <- Rand.uniform 60 95 ;;
          production_val <- Rand.uniform 70 90 ;;
          Rand.ret (Ok [u_val; s_val; food_security_val; production_val])
      end
  end.

(** [Series.rank()] with its defaults (ascending, [method='average']): the
    mean of the positions a value takes in sorted order, that is the number
    of smaller values plus half of (the number of equal values plus one). *)
Definition count_lt (l : list R) (x : R) : nat :=
  List.length (filter (fun y => if Rlt_dec y x then true else false) l).

Definition count_eq (l : list R) (x : R) : nat :=
  List.length (filter (fun y => if Req_dec_T y x then true else false) l).

Definition rank (l : list R) (x : R) : R :=
  INR (count_lt l x) + (INR (count_eq l x) + 1) / 2.

(** [ranking_data]: the rows of the year with their rank column. *)
Record RankingRow := {
  rk_Year : Z;
  rk_Region : string;
  rk_Undernourishment_Rate : R;
  rk_Undernourishment_Rank : R
}.

Definition rank_row (year_und : list UndernourishmentRow)
  (r : UndernourishmentRow) : RankingRow :=
  {| rk_Year := u_Year r;
     rk_Region := u_Region r;
     rk_Undernourishment_Rate := Undernourishment_Rate r;
     rk_Undernourishment_Rank :=
       rank (map Undernourishment_Rate year_und) (Undernourishment_Rate r) |}.

Definition ranking_data (year_und : list UndernourishmentRow) : list RankingRow :=
  map (rank_row year_und) year_und.

(** [stunting_ranks]: the stunting rows of the year, reduced to the columns
    [Region] and [Stunting_Rank]. *)
Definition stunting_rows (year_nut : list NutritionRow) : list NutritionRow :=
  filter (fun r => String.eqb (n_Indicator r) "Stunting") year_nut.

Definition stunting_rank_row (year_nut : list NutritionRow) (r : NutritionRow)
  : string * R :=
  (n_Region r, rank (map Rate (stunting_rows year_nut)) (Rate r)).

Definition stunting_ranks (year_nut : list NutritionRow) : list (string * R) :=
  map (stunting_rank_row year_nut) (stunting_rows year_nut).

(** [left.merge(right, on='Region')]: the inner join, in the order of the
    left rows. *)
Definition merge_on_region {A B} (region_l : A -> string) (region_r : B -> string)
  (left : list A) (right : list B) : list (A * B) :=
  flat_map (fun l =>
              map (fun r => (l, r))
                (filter (fun r => String.eqb (region_r r) (region_l l)) right))
    left.

Record FinalRow := {
  f_Year : Z;
  f_Region : string;
  f_Undernourishment_Rate : R;
  Undernourishment_Rank : R;
  Stunting_Rank : R;
  Overall_Score : R
}.

(** A merged row with its [Overall_Score] column. *)
Definition score_row (lr : RankingRow * (string * R)) : FinalRow :=
  let (l, r) := lr in
  {| f_Year := rk_Year l;
     f_Region := rk_Region l;
     f_Undernourishment_Rate := rk_Undernourishment_Rate l;
     Undernourishment_Rank := rk_Undernourishment_Rank l;
     Stunting_Rank := snd r;
     Overall_Score := (rk_Undernourishment_Rank l + snd r) / 2 |}.

(** [sort_values('Overall_Score')], ascending.  The library does not keep
    the order of rows with equal score (its default sort is not stable); the
    rows are inserted here from the last to the first, and no statement
    below depends on where tied rows end up. *)
Fixpoint insert_by_score (x : FinalRow) (l : list FinalRow) : list FinalRow :=
  match l with
  | [] => [x]
  | y :: l' =>
      if Rle_dec (Overall_Score x) (Overall_Score y) then x :: l
      else y :: insert_by_score x l'
  end.

Definition sort_values (l : list FinalRow) : list FinalRow :=
  fold_right insert_by_score [] l.

Definition final_ranking (undernourishment_df : list UndernourishmentRow)
  (nutrition_df : list NutritionRow) (selected_year : Z) : list FinalRow :=
  let year_und := year_undernourishment undernourishment_df selected_year in
  let year_nut := year_nutrition nutrition_df selected_year in
  sort_values
    (map score_row
       (merge_on_region rk_Region fst
          (ranking_data year_und) (stunting_ranks year_nut))).

(** The row of [final_ranking] that joins the undernourishment row [u] with
    the stunting row [n] of the same region. *)
Definition joined_row (year_und : list UndernourishmentRow)
  (year_nut : list NutritionRow) (u : UndernourishmentRow) (n : NutritionRow)
  : FinalRow :=
  score_row (rank_row year_und u, stunting_rank_row year_nut n).

(** ** Values of a table at a key *)

(** The production values a table holds for a crop in a year, in row order:
    [value_at(year)] of the design document is the only element when there
    is exactly one. *)
Definition values_at (production_df : list ProductionRow) (crop : string)
  (year : Z) : list R :=
  map Production
    (filter (fun r => String.eqb (p_Crop r) crop && Z.eqb (p_Year r) year)
       production_df).

(** ** The growth rate in binary64 arithmetic *)






(** The float that Python reads from the literal [0.1]. *)
Definition float_0_1 : float := 0x1.999999999999ap-4%float.


(** ** Properties of the tables, as predicates *)

(** One row for every pair of the cross-product of a category list and the
    years 2015 to 2023, and no other row. *)
Definition one_row_per_pair {Row K} (key : Row -> K * Z) (table : list Row)
  (categories : list K) : Prop :=
  NoDup (map key table) /\
  forall c y,
    In (c, y) (map key table) <-> In c categories /\ (2015 <= y <= 2023)%Z.

(** A duplicate-free list of strings, decided by computation. *)
Fixpoint distinct (l : list string) : bool :=
  match l with
  | [] => true
  | x :: l' => negb (existsb (String.eqb x) l') && distinct l'
  end.

(** What holds of a computation on every valid random source: the property
    of the result, and the source stays valid. *)
Definition ensures {A} (m : Rand.M A) (Q : A -> Prop) : Prop :=
  forall s, Rand.valid s -> Q (fst (m s)) /\ Rand.valid (snd (m s)).

(** ** Values of the generator as functions of the draws *)

(** The production of a crop in a year, from the result [u_base] of
    [random.random()] behind the base production of the crop and the result
    [u_noise] behind the noise of the year. *)
Definition production_value (u_base : R) (year : Z) (u_noise : R) : R :=
  (100 + (500 - 100) * u_base) * powerRZ 1.02 (year - 2015)
  * (0.95 + (1.05 - 0.95) * u_noise).

(** The rate of a nutrition row, from the result [u] of [random.random()]
    behind its noise. *)
Definition nutrition_rate (region indicator : string) (year : Z) (u : R) : R :=
  Rmax 0
    (subscript (subscript base_rates indicator []) region 0
     + (if negb (String.eqb indicator "Overweight") then -0.3 else 0.2)
       * IZR (year - 2015)
     + (-0.5 + (0.5 - -0.5) * u)).

(** The position, in the stream of a run, of the draw behind the nutrition
    row of the [i]-th region, the [j]-th indicator and the [k]-th year: the
    three tables before take 54, 60 and 270 draws. *)
Definition nutrition_draw (i j k : nat) : nat := (384 + 27 * i + 9 * j + k)%nat.

(** The rates of one indicator and year in the six regions of a run. *)
Definition nutrition_rates (s : Rand.rng) (indicator : string) (j : nat)
  (year : Z) (k : nat) : list R :=
  map (fun ir => nutrition_rate (snd ir) indicator year
                   (s (nutrition_draw (fst ir) j k)))
    (combine (seq 0 6) regions).

(** The number of values of a column above [x]. *)
Definition count_gt (l : list R) (x : R) : nat :=
  List.length (filter (fun y => if Rlt_dec x y then true else false) l).

(** Rows in ascending order of [Overall_Score]. *)
Definition ascending_scores (l : list FinalRow) : Prop :=
  StronglySorted (fun a b => Overall_Score a <= Overall_Score b) l.

(** ** Overview, Food Production and Food Security views: aggregates *)

(** [df.groupby(key)[value].agg()] followed by [reset_index()]: one row for
    every distinct key, in sorted order, with the aggregate of the values of
    the rows of that key. *)
Definition groupby {Row K A} (eqb ltb : K -> K -> bool) (key : Row -> K)
  (value : Row -> R) (agg : list R -> A) (df : list Row) : list (K * A) :=
  map (fun k => (k, agg (map value (filter (fun r => eqb (key r) k) df))))
    (sorted_labels eqb ltb (map key df)).

(** [undernourishment_df.groupby('Year')['Undernourishment_Rate'].mean()] *)
Definition global_trend (undernourishment_df : list UndernourishmentRow)
  : list (Z * option R) :=
  groupby Z.eqb Z.ltb u_Year Undernourishment_Rate mean undernourishment_df.

(** [security_df.groupby('Year')['Population_Affected'].sum()] *)
Definition total_affected (security_df : list FoodSecurityRow) : list (Z * R) :=
  groupby Z.eqb Z.ltb s_Year Population_Affected Rsum security_df.

(** The four metrics of the overview. *)
Definition latest_undernourishment
  (undernourishment_df : list UndernourishmentRow) : option R :=
  mean (map Undernourishment_Rate
          (filter (fun r => Z.eqb (u_Year r) 2023) undernourishment_df)).

Definition total_production (production_df : list ProductionRow) : R :=
  Rsum (map Production (filter (fun r => Z.eqb (p_Year r) 2023) production_df)).

Definition crisis_countries (security_df : list FoodSecurityRow) : nat :=
  List.length
    (filter (fun r => Z.eqb (s_Year r) 2023
                      && (if Rle_dec 3 (Food_Security_Level r)
                          then true else false))
       security_df).

Definition avg_stunting (nutrition_df : list NutritionRow) : option R :=
  mean (map Rate
          (filter (fun r => Z.eqb (n_Year r) 2023
                            && String.eqb (n_Indicator r) "Stunting")
             nutrition_df)).

(** [stunting_data] and [comparison_data] of the regional comparison: the
    stunting rows of the year, renamed, merged into the undernourishment
    rows of the year. *)
Definition comparison_data (undernourishment_df : list UndernourishmentRow)
  (nutrition_df : list NutritionRow) (selected_year : Z)
  : list (UndernourishmentRow * (string * R)) :=
  let year_und := year_undernourishment undernourishment_df selected_year in
  let year_nut := year_nutrition nutrition_df selected_year in
  let stunting_data :=
    map (fun r => (n_Region r, Rate r)) (stunting_rows year_nut) in
  merge_on_region u_Region fst year_und stunting_data.

(** Equality and order of floats, as the tests of the library decide them. *)
Definition Reqb (x y : R) : bool := if Req_dec_T x y then true else false.
Definition Rltb (x y : R) : bool := if Rlt_dec x y then true else false.

(** [Series.map({1: 'Minimal', 2: 'Stressed', 3: 'Crisis', 4: 'Emergency'})]
    on a level: the name of a level that is a key of the dict, NaN
    otherwise. *)
Definition level_name (level : R) : option string :=
  if Req_dec_T level 1 then Some "Minimal"
  else if Req_dec_T level 2 then Some "Stressed"
  else if Req_dec_T level 3 then Some "Crisis"
  else if Req_dec_T level 4 then Some "Emergency"
  else None.

(** [security_counts]: the distinct levels of 2023 with the number of their
    rows and their name. *)
Record SecurityCount := {
  c_Food_Security_Level : R;
  Count : nat;
  Level_Name : option string
}.

Definition security_counts (security_df : list FoodSecurityRow)
  : list SecurityCount :=
  let latest_security :=
    filter (fun r => Z.eqb (s_Year r) 2023) security_df in
  map (fun lc => {| c_Food_Security_Level := fst lc;
                    Count := snd lc;
                    Level_Name := level_name (fst lc) |})
    (groupby Reqb Rltb Food_Security_Level Food_Security_Level
       (@List.length R) latest_security).

(** ** Random sources given by their first draws *)

(** The stream that starts with the draws of a list and goes on with 0. *)
Definition stream_of (draws : list R) : Rand.rng := fun n => nth n draws 0.

(** The first [n] draws of a stream. *)
Definition first_draws (n : nat) (s : Rand.rng) : list R := map s (seq 0 n).

(** The labels of a list in strictly ascending order. *)
Definition ascending {K} (lt : K -> K -> Prop) (l : list K) : Prop :=
  StronglySorted lt l.

(** * Theorems *)

(** ** The random monad *)

Lemma ensures_ret {A} (a : A) (Q : A -> Prop) : Q a -> ensures (Rand.ret a) Q.
Proof. intros Ha s Hs. split; assumption. Qed.

Lemma ensures_bind {A B} (m : Rand.M A) (k : A -> Rand.M B)
  (P : A -> Prop) (Q : B -> Prop) :
  ensures m P -> (forall a, P a -> ensures (k a) Q) -> ensures (Rand.bind m k) Q.
Proof.
  intros Hm Hk s Hs. unfold Rand.bind.
  destruct (Hm s Hs) as [Ha Hs']. destruct (m s) as [a s']. cbn in *.
  exact (Hk a Ha s' Hs').
Qed.

Lemma ensures_weaken {A} (m : Rand.M A) (P Q : A -> Prop) :
  ensures m P -> (forall a, P a -> Q a) -> ensures m Q.
Proof.
  intros Hm HPQ s Hs. destruct (Hm s Hs) as [Ha Hs']. split; auto.
Qed.

Lemma ensures_random : ensures Rand.random (fun u => 0 <= u < 1).
Proof.
  intros s Hs. cbn. split; [apply Hs|]. intros n. apply Hs.
Qed.

Lemma ensures_uniform (a b : R) :
  a <= b -> ensures (Rand.uniform a b) (fun x => a <= x <= b).
Proof.
  intros Hab. unfold Rand.uniform.
  apply ensures_bind with (P := fun u => 0 <= u < 1); [apply ensures_random|].
  intros u Hu. apply ensures_ret. nra.
Qed.

Lemma ensures_for_each {A B} (xs : list A) (body : A -> Rand.M (list B))
  (P : B -> Prop) :
  (forall x, In x xs -> ensures (body x) (Forall P)) ->
  ensures (for_each xs body) (Forall P).
Proof.
  induction xs as [|x xs IH]; intros Hbody; cbn [for_each].
  - apply ensures_ret. constructor.
  - apply ensures_bind with (P := Forall P); [apply Hbody; left; reflexivity|].
    intros rows Hrows.
    apply ensures_bind with (P := Forall P).
    + apply IH. intros y Hy. apply Hbody. right. exact Hy.
    + intros rest Hrest. apply ensures_ret. apply Forall_app. split; assumption.
Qed.

(** ** Shape of the generated tables *)

Lemma years_range (y : Z) : In y years <-> (2015 <= y <= 2023)%Z.
Proof.
  unfold years. cbn [In]. lia.
Qed.

Lemma NoDup_list_prod {A B} (l : list A) (l' : list B) :
  NoDup l -> NoDup l' -> NoDup (list_prod l l').
Proof.
  intros Hl Hl'. induction Hl as [|a l Ha Hl IH]; cbn [list_prod].
  - constructor.
  - apply NoDup_app.
    + apply Injective_map_NoDup; [|exact Hl'].
      intros x y Hxy. congruence.
    + exact IH.
    + intros [a' b] Hin Hin'. apply in_map_iff in Hin as (x & Hx & _).
      apply in_prod_iff in Hin' as [Hin' _]. congruence.
Qed.

Lemma distinct_NoDup (l : list string) : distinct l = true -> NoDup l.
Proof.
  induction l as [|x l IH]; cbn [distinct]; intros H.
  - constructor.
  - apply andb_true_iff in H as [Hx Hl]. constructor; [|auto].
    intros Hin. apply negb_true_iff in Hx.
    assert (existsb (String.eqb x) l = true) as E; [|congruence].
    apply existsb_exists. exists x. split; [exact Hin|apply String.eqb_refl].
Qed.

Lemma NoDup_years : NoDup years.
Proof.
  unfold years. repeat constructor; cbn [In]; lia.
Qed.

Lemma one_row_per_pair_prod {Row K} (key : Row -> K * Z) (table : list Row)
  (categories : list K) :
  map key table = list_prod categories years ->
  NoDup categories ->
  one_row_per_pair key table categories.
Proof.
  intros E Hc. unfold one_row_per_pair. rewrite E. split.
  - apply NoDup_list_prod; [exact Hc|exact NoDup_years].
  - intros c y. rewrite in_prod_iff, years_range. reflexivity.
Qed.

(** The keys of the four tables, in row order: the loops of the generator
    run over the category list first and the years inside. *)
Lemma generated_keys (s : Rand.rng) :
  let t := Rand.run generate_sdg2_data s in
  map u_key (undernourishment_df t) = list_prod regions years /\
  map p_key (production_df t) = list_prod crops years /\
  map s_key (security_df t) = list_prod countries years /\
  map n_key (nutrition_df t) = list_prod (list_prod regions indicators) years.
Proof.
  cbv zeta. split; [|split; [|split]]; reflexivity.
Qed.

Lemma length_of_keys {Row K} (key : Row -> K) (table : list Row) (keys : list K)
  (n : nat) :
  map key table = keys -> List.length keys = n -> List.length table = n.
Proof.
  intros <- <-. symmetry. apply length_map.
Qed.

Lemma table_shape {Row K} (key : Row -> K * Z) (table : list Row)
  (cats : list K) (n : nat) :
  map key table = list_prod cats years ->
  NoDup cats ->
  List.length (list_prod cats years) = n ->
  one_row_per_pair key table cats /\ List.length table = n.
Proof.
  intros E Hc Hn. split.
  - apply one_row_per_pair_prod; assumption.
  - apply (length_of_keys key table _ n E Hn).
Qed.

(** C1. Every run of [generate_sdg2_data], whatever the random source, returns
    four tables with exactly one row for every pair of the cross-product of
    its category list and the years 2015 to 2023 and no other row: 54
    undernourishment rows (6 regions), 54 production rows (6 crops), 90
    food-security rows (10 countries) and 162 nutrition rows (6 regions
    times 3 indicators). *)
Theorem generate_sdg2_data_cross_product (s : Rand.rng) :
  let t := Rand.run generate_sdg2_data s in
  (one_row_per_pair u_key (undernourishment_df t) regions /\
   List.length (undernourishment_df t) = 54%nat) /\
  (one_row_per_pair p_key (production_df t) crops /\
   List.length (production_df t) = 54%nat) /\
  (one_row_per_pair s_key (security_df t) countries /\
   List.length (security_df t) = 90%nat) /\
  (one_row_per_pair n_key (nutrition_df t) (list_prod regions indicators) /\
   List.length (nutrition_df t) = 162%nat) /\
  (forall r i, In (r, i) (list_prod regions indicators) <->
               In r regions /\ In i indicators).
Proof.
  destruct (generated_keys s) as (Eu & Ep & Es & En). cbv zeta.
  split; [|split; [|split; [|split]]].
  - apply (table_shape _ _ _ _ Eu);
      [apply distinct_NoDup|]; vm_compute; reflexivity.
  - apply (table_shape _ _ _ _ Ep);
      [apply distinct_NoDup|]; vm_compute; reflexivity.
  - apply (table_shape _ _ _ _ Es);
      [apply distinct_NoDup|]; vm_compute; reflexivity.
  - apply (table_shape _ _ _ _ En).
    + apply NoDup_list_prod; apply distinct_NoDup; vm_compute; reflexivity.
    + vm_compute; reflexivity.
  - intros r i. apply in_prod_iff.
Qed.

(** ** Ranges of the generated values *)

Lemma ensures_row {A} (m : Rand.M R) (row : R -> A) (P : R -> Prop)
  (Q : A -> Prop) :
  ensures m P -> (forall x, P x -> Q (row x)) ->
  ensures (x <- m ;; Rand.ret [row x]) (Forall Q).
Proof.
  intros Hm Hrow. apply ensures_bind with (P := P); [exact Hm|].
  intros x Hx. apply ensures_ret. constructor; [auto|constructor].
Qed.

(** The base rates of the dict literals are bounded. *)
Lemma base_rate_range (region : string) :
  0 <= subscript base_rate region 0 <= 25.
Proof.
  unfold base_rate. cbn [subscript].
  repeat match goal with
         | |- context [String.eqb ?a ?b] => destruct (String.eqb a b)
         end; lra.
Qed.

Lemma base_rates_range (indicator region : string) :
  0 <= subscript (subscript base_rates indicator []) region 0 <= 35 /\
  (String.eqb indicator "Overweight" = true ->
   subscript (subscript base_rates indicator []) region 0 <= 18).
Proof.
  split.
  - unfold base_rates. cbn [subscript].
    repeat match goal with
           | |- context [String.eqb indicator ?b] =>
               destruct (String.eqb indicator b); cbn [subscript]
           end;
      repeat match goal with
             | |- context [String.eqb region ?b] => destruct (String.eqb region b)
             end; lra.
  - intros E. apply String.eqb_eq in E. subst indicator.
    change (subscript base_rates "Overweight" [])
      with [("Sub-Saharan Africa", 5); ("Asia", 8); ("Latin America", 12);
            ("North America", 15); ("Europe", 13); ("Oceania", 18)].
    cbn [subscript].
    repeat match goal with
           | |- context [String.eqb region ?b] => destruct (String.eqb region b)
           end; lra.
Qed.

Lemma year_offset_range (year : Z) :
  In year years -> 0 <= IZR (year - 2015) <= 8.
Proof.
  intros H. apply years_range in H. split.
  - apply IZR_le. lia.
  - apply IZR_le. lia.
Qed.

Lemma undernourishment_data_range :
  ensures undernourishment_data
    (Forall (fun r => 0 <= Undernourishment_Rate r <= 26)).
Proof.
  unfold undernourishment_data.
  apply ensures_for_each. intros region _.
  apply ensures_for_each. intros year Hyear.
  unfold undernourishment_row.
  apply ensures_row with (P := fun x => -1 <= x <= 1).
  - apply ensures_uniform. lra.
  - intros noise Hnoise. cbn [Undernourishment_Rate].
    pose proof (base_rate_range region) as Hbase.
    pose proof (year_offset_range year Hyear) as Hoff.
    split; [apply Rmax_l|]. apply Rmax_lub; lra.
Qed.

Lemma food_production_data_range :
  ensures food_production_data (Forall (fun r => 0 < Production r)).
Proof.
  unfold food_production_data.
  apply ensures_for_each. intros crop _.
  apply ensures_bind with (P := fun b => 100 <= b <= 500).
  { apply ensures_uniform. lra. }
  intros base_production Hbase.
  apply ensures_for_each. intros year _.
  unfold production_row.
  apply ensures_row with (P := fun x => 0.95 <= x <= 1.05).
  - apply ensures_uniform. lra.
  - intros noise Hnoise. cbn [Production].
    assert (0 < powerRZ 1.02 (year - 2015)) by (apply powerRZ_lt; lra).
    apply Rmult_lt_0_compat; [apply Rmult_lt_0_compat|]; lra.
Qed.

(** The level before the clamp is at most 3.7, so that [min(4, .)] returns
    its argument. *)
Lemma food_security_level_range (base_level noise : R) (year : Z) :
  1.5 <= base_level <= 3.5 -> -0.2 <= noise <= 0.2 -> (2015 <= year)%Z ->
  food_security_level base_level noise year
  = Rmax 1 (base_level + -0.05 * IZR (year - 2015) + noise) /\
  1 <= food_security_level base_level noise year <= 3.7.
Proof.
  intros Hbase Hnoise Hyear. unfold food_security_level. cbv zeta.
  assert (0 <= IZR (year - 2015)) as Ht by (apply IZR_le; lia).
  assert (base_level + -0.05 * IZR (year - 2015) + noise <= 3.7) as Hraw
    by nra.
  rewrite (Rmin_right 4) by lra.
  split; [reflexivity|]. split; [apply Rmax_l|apply Rmax_lub; lra].
Qed.

Lemma food_security_row_range (country : string) (year : Z) :
  (2015 <= year)%Z ->
  ensures (food_security_row country year)
    (Forall (fun r => 1 <= Food_Security_Level r <= 3.7 /\
                      5 <= Population_Affected r <= 40)).
Proof.
  intros Hyear. unfold food_security_row.
  apply ensures_bind with (P := fun b => 1.5 <= b <= 3.5).
  { apply ensures_uniform. lra. }
  intros base_level Hbase.
  apply ensures_bind with (P := fun x => -0.2 <= x <= 0.2).
  { apply ensures_uniform. lra. }
  intros noise Hnoise.
  apply ensures_row with (P := fun x => 5 <= x <= 40).
  { apply ensures_uniform. lra. }
  intros affected Haff. cbn [Food_Security_Level Population_Affected].
  split; [|exact Haff].
  apply (food_security_level_range base_level noise year); assumption.
Qed.

Lemma food_security_data_range :
  ensures food_security_data
    (Forall (fun r => 1 <= Food_Security_Level r <= 3.7 /\
                      5 <= Population_Affected r <= 40)).
Proof.
  unfold food_security_data.
  apply ensures_for_each. intros country _.
  apply ensures_for_each. intros year Hyear.
  apply food_security_row_range. apply years_range in Hyear. lia.
Qed.

Lemma nutrition_data_range :
  ensures nutrition_data (Forall (fun r => 0 <= Rate r <= 35.5)).
Proof.
  unfold nutrition_data.
  apply ensures_for_each. intros region _.
  apply ensures_for_each. intros indicator _.
  apply ensures_for_each. intros year Hyear.
  unfold nutrition_row.
  apply ensures_row with (P := fun x => -0.5 <= x <= 0.5).
  - apply ensures_uniform. lra.
  - intros noise Hnoise. cbn [Rate].
    destruct (base_rates_range indicator region) as [Hbase Hover].
    pose proof (year_offset_range year Hyear) as Hoff.
    split; [apply Rmax_l|]. apply Rmax_lub; [lra|].
    destruct (String.eqb indicator "Overweight"); cbn [negb].
    + specialize (Hover eq_refl). lra.
    + lra.
Qed.

(** The four range properties together, on the tables of one run. *)
Lemma generate_sdg2_data_range :
  ensures generate_sdg2_data (fun t =>
    Forall (fun r => 0 <= Undernourishment_Rate r <= 26)
      (undernourishment_df t) /\
    Forall (fun r => 0 < Production r) (production_df t) /\
    Forall (fun r => 1 <= Food_Security_Level r <= 3.7 /\
                     5 <= Population_Affected r <= 40) (security_df t) /\
    Forall (fun r => 0 <= Rate r <= 35.5) (nutrition_df t)).
Proof.
  unfold generate_sdg2_data.
  eapply ensures_bind; [apply undernourishment_data_range|]. intros u Hu.
  eapply ensures_bind; [apply food_production_data_range|]. intros p Hp.
  eapply ensures_bind; [apply food_security_data_range|]. intros f Hf.
  eapply ensures_bind; [apply nutrition_data_range|]. intros n Hn.
  apply ensures_ret. cbn. auto.
Qed.

(** A random source to run the generator on: every draw is one half. *)
Lemma valid_half : Rand.valid (fun _ => 1 / 2).
Proof. intros n. lra. Qed.

(** C2. On every run of [generate_sdg2_data], every undernourishment and
    nutrition rate is at least 0, every production is positive, every
    affected population is at least 0 and every food-security level lies in
    the interval from 1 to 4. *)
Theorem generate_sdg2_data_ranges (s : Rand.rng) :
  Rand.valid s ->
  let t := Rand.run generate_sdg2_data s in
  Forall (fun r => 0 <= Undernourishment_Rate r) (undernourishment_df t) /\
  Forall (fun r => 0 <= Rate r) (nutrition_df t) /\
  Forall (fun r => 0 < Production r) (production_df t) /\
  Forall (fun r => 0 <= Population_Affected r /\
                   1 <= Food_Security_Level r <= 4) (security_df t).
Proof.
  intros Hs. destruct (generate_sdg2_data_range s Hs) as [(Hu & Hp & Hf & Hn) _].
  cbv zeta. unfold Rand.run. split; [|split; [|split]].
  - eapply Forall_impl; [|exact Hu]. cbv beta. intros r. lra.
  - eapply Forall_impl; [|exact Hn]. cbv beta. intros r. lra.
  - exact Hp.
  - eapply Forall_impl; [|exact Hf]. cbv beta. intros r. lra.
Qed.

Lemma generate_sdg2_data_ranges_witness :
  Rand.valid (fun _ => 1 / 2) /\
  let t := Rand.run generate_sdg2_data (fun _ => 1 / 2) in
  Forall (fun r => 0 <= Undernourishment_Rate r) (undernourishment_df t) /\
  Forall (fun r => 0 <= Rate r) (nutrition_df t) /\
  Forall (fun r => 0 < Production r) (production_df t) /\
  Forall (fun r => 0 <= Population_Affected r /\
                   1 <= Food_Security_Level r <= 4) (security_df t).
Proof.
  split; [exact valid_half|].
  exact (generate_sdg2_data_ranges (fun _ => 1 / 2) valid_half).
Defined.

(** C10. On every run of [generate_sdg2_data], every food-security level is
    at most 3.7: the base is at most 3.5, the trend is not positive and the
    noise is at most 0.2.  The level is then below 4 and no row has the
    level 4; on the draws of the generator the clamp [min(4, .)] returns its
    argument. *)
Theorem food_security_level_below_emergency (s : Rand.rng) :
  Rand.valid s ->
  Forall (fun r => Food_Security_Level r <= 3.7 /\
                   Food_Security_Level r < 4 /\
                   Food_Security_Level r <> 4)
    (security_df (Rand.run generate_sdg2_data s)) /\
  (forall base_level noise year,
     1.5 <= base_level <= 3.5 -> -0.2 <= noise <= 0.2 -> In year years ->
     food_security_level base_level noise year
     = Rmax 1 (base_level + -0.05 * IZR (year - 2015) + noise)).
Proof.
  intros Hs. split.
  - destruct (generate_sdg2_data_range s Hs) as [(_ & _ & Hf & _) _].
    unfold Rand.run. eapply Forall_impl; [|exact Hf]. cbv beta. intros r. lra.
  - intros base_level noise year Hbase Hnoise Hyear.
    apply food_security_level_range; try assumption.
    apply years_range in Hyear. lia.
Qed.

Lemma food_security_level_below_emergency_witness :
  Rand.valid (fun _ => 1 / 2) /\
  Forall (fun r => Food_Security_Level r <= 3.7 /\
                   Food_Security_Level r < 4 /\
                   Food_Security_Level r <> 4)
    (security_df (Rand.run generate_sdg2_data (fun _ => 1 / 2))) /\
  food_security_level 3.5 0.2 2015
  = Rmax 1 (3.5 + -0.05 * IZR (2015 - 2015) + 0.2).
Proof.
  split; [exact valid_half|].
  destruct (food_security_level_below_emergency (fun _ => 1 / 2) valid_half)
    as [Hrows Hclamp].
  split; [exact Hrows|].
  apply Hclamp; [lra|lra|]. unfold years. cbn [In]. left. reflexivity.
Defined.

(** ** Annual growth rate *)

Lemma filter_filter {A} (f g : A -> bool) (l : list A) :
  filter g (filter f l) = filter (fun x => f x && g x) l.
Proof.
  induction l as [|x l IH]; cbn [filter]; [reflexivity|].
  destruct (f x); cbn [filter andb]; [destruct (g x)|]; congruence.
Qed.

(** The loop body reads the first value of each endpoint year and applies
    the formula to the two. *)
Lemma growth_rate_values (production_df : list ProductionRow) (crop : string) :
  growth_rate production_df crop
  = (first_year <-- iloc0 (values_at production_df crop 2015) ;;;
     last_year <-- iloc0 (values_at production_df crop 2023) ;;;
     Ok (annual_growth_formula first_year last_year)).
Proof.
  unfold growth_rate, values_at. cbv zeta. rewrite !filter_filter.
  destruct (iloc0 _) as [first_year|e]; cbn [rbind]; [|reflexivity].
  destruct (iloc0 _) as [last_year|e]; cbn [rbind]; [|reflexivity].
  unfold annual_growth_formula.
  destruct (float_div last_year first_year) as [ratio|]; [|reflexivity].
  destruct (pow_eighth ratio); reflexivity.
Qed.

Lemma annual_growth_formula_positive (value_2015 value_2023 : R) :
  0 < value_2015 -> 0 < value_2023 ->
  annual_growth_formula value_2015 value_2023
  = Some ((Rpower (value_2023 / value_2015) (1 / 8) - 1) * 100).
Proof.
  intros H15 H23. unfold annual_growth_formula, float_div, pow_eighth.
  destruct (Req_dec_T value_2015 0) as [E|_]; [lra|].
  assert (0 < value_2023 / value_2015) as Hratio
    by (apply Rdiv_lt_0_compat; assumption).
  destruct (Rlt_dec 0 (value_2023 / value_2015)) as [_|N]; [reflexivity|].
  contradiction.
Qed.

(** A table with one row for the crop "Cereals" in each endpoint year. *)
Lemma values_at_two_rows (a b : R) (year : Z) :
  values_at
    [ {| p_Year := 2015; p_Crop := "Cereals"; Production := a;
         Unit := "Million Tonnes" |};
      {| p_Year := 2023; p_Crop := "Cereals"; Production := b;
         Unit := "Million Tonnes" |} ] "Cereals" year
  = (if Z.eqb 2015 year then [a] else []) ++
    (if Z.eqb 2023 year then [b] else []).
Proof.
  unfold values_at. cbn [filter p_Crop p_Year].
  change (String.eqb "Cereals" "Cereals") with true. cbn [andb].
  destruct (Z.eqb 2015 year), (Z.eqb 2023 year); reflexivity.
Qed.

(** C6. On a production table with exactly one value for the crop in each
    of the years 2015 and 2023, the growth rate of the crop is the formula
    [((v2023 / v2015) ** (1/8) - 1) * 100] on the two values; for positive
    values that is the real number [((v2023 / v2015) ^ (1/8) - 1) * 100]. *)
Theorem growth_rate_formula (production_df : list ProductionRow)
  (crop : string) (value_2015 value_2023 : R) :
  values_at production_df crop 2015 = [value_2015] ->
  values_at production_df crop 2023 = [value_2023] ->
  growth_rate production_df crop
  = Ok (annual_growth_formula value_2015 value_2023) /\
  (0 < value_2015 -> 0 < value_2023 ->
   growth_rate production_df crop
   = Ok (Some ((Rpower (value_2023 / value_2015) (1 / 8) - 1) * 100))).
Proof.
  intros H15 H23. rewrite growth_rate_values, H15, H23. cbn [iloc0 rbind].
  split; [reflexivity|]. intros Hp15 Hp23.
  rewrite annual_growth_formula_positive by assumption. reflexivity.
Qed.

Lemma growth_rate_formula_witness :
  let production_df :=
    [ {| p_Year := 2015; p_Crop := "Cereals"; Production := 100;
         Unit := "Million Tonnes" |};
      {| p_Year := 2023; p_Crop := "Cereals"; Production := 200;
         Unit := "Million Tonnes" |} ] in
  values_at production_df "Cereals" 2015 = [100] /\
  values_at production_df "Cereals" 2023 = [200] /\
  growth_rate production_df "Cereals"
  = Ok (Some ((Rpower (200 / 100) (1 / 8) - 1) * 100)).
Proof.
  cbv zeta.
  assert (values_at
            [ {| p_Year := 2015; p_Crop := "Cereals"; Production := 100;
                 Unit := "Million Tonnes" |};
              {| p_Year := 2023; p_Crop := "Cereals"; Production := 200;
                 Unit := "Million Tonnes" |} ] "Cereals" 2015 = [100]) as H15
    by (rewrite values_at_two_rows; reflexivity).
  assert (values_at
            [ {| p_Year := 2015; p_Crop := "Cereals"; Production := 100;
                 Unit := "Million Tonnes" |};
              {| p_Year := 2023; p_Crop := "Cereals"; Production := 200;
                 Unit := "Million Tonnes" |} ] "Cereals" 2023 = [200]) as H23
    by (rewrite values_at_two_rows; reflexivity).
  split; [exact H15|]. split; [exact H23|].
  apply (proj2 (growth_rate_formula _ "Cereals" 100 200 H15 H23)); lra.
Defined.

(** *** Scaling in binary64 arithmetic *)




(** An ordinary factor changes the quotient by rounding: the values 100 and
    117 have the quotient 1.17, and 1.1700000000000002 after both were
    multiplied by 0.1. *)
Lemma quotient64_changes_by_rounding :
  PrimFloat.eqb ((float_0_1 * 117) / (float_0_1 * 100))%float (117 / 100)%float
  = false.
Proof. vm_compute. reflexivity. Qed.




(** A table without a value for "Cereals" in 2015: the growth rate raises
    [IndexError], not the [InsufficientDataError] of the design document. *)
Lemma growth_rate_not_InsufficientDataError :
  ~ (forall production_df crop,
       values_at production_df crop 2015 = [] \/
       values_at production_df crop 2023 = [] ->
       growth_rate production_df crop = Raise InsufficientDataError).
Proof.
  intros H.
  specialize (H [ {| p_Year := 2023; p_Crop := "Cereals"; Production := 200;
                     Unit := "Million Tonnes" |} ] "Cereals").
  rewrite growth_rate_values in H.
  assert (values_at
            [ {| p_Year := 2023; p_Crop := "Cereals"; Production := 200;
                 Unit := "Million Tonnes" |} ] "Cereals" 2015 = []) as E
    by reflexivity.
  rewrite E in H. cbn [iloc0 rbind] in H.
  specialize (H (or_introl eq_refl)). discriminate H.
Qed.

(** C4, amended. When the table holds no value for the crop in 2015 or none
    in 2023, the growth rate raises the [IndexError] of [.iloc[0]]. *)
Theorem growth_rate_missing_endpoint (production_df : list ProductionRow)
  (crop : string) :
  values_at production_df crop 2015 = [] \/
  values_at production_df crop 2023 = [] ->
  growth_rate production_df crop = Raise IndexError.
Proof.
  intros [E|E]; rewrite growth_rate_values.
  - rewrite E. reflexivity.
  - rewrite E. destruct (values_at production_df crop 2015); reflexivity.
Qed.

Lemma growth_rate_missing_endpoint_witness :
  let production_df :=
    [ {| p_Year := 2015; p_Crop := "Cereals"; Production := 100;
         Unit := "Million Tonnes" |} ] in
  (values_at production_df "Cereals" 2015 = [] \/
   values_at production_df "Cereals" 2023 = []) /\
  growth_rate production_df "Cereals" = Raise IndexError.
Proof.
  cbv zeta.
  assert (values_at
            [ {| p_Year := 2015; p_Crop := "Cereals"; Production := 100;
                 Unit := "Million Tonnes" |} ] "Cereals" 2015 = [] \/
          values_at
            [ {| p_Year := 2015; p_Crop := "Cereals"; Production := 100;
                 Unit := "Million Tonnes" |} ] "Cereals" 2023 = []) as H
    by (right; reflexivity).
  split; [exact H|]. exact (growth_rate_missing_endpoint _ "Cereals" H).
Defined.

(** ** Progress tracking *)

Lemma progress_row_change (nutrition_df : list NutritionRow) (indicator : string) :
  Change (progress_row nutrition_df indicator)
  = if String.eqb indicator "Overweight"
    then float_sub (mean_rate nutrition_df indicator 2023)
                   (mean_rate nutrition_df indicator 2015)
    else float_sub (mean_rate nutrition_df indicator 2015)
                   (mean_rate nutrition_df indicator 2023).
Proof.
  unfold progress_row, mean_rate. cbv zeta.
  destruct (String.eqb indicator "Overweight"); reflexivity.
Qed.

Lemma progress_row_direction (nutrition_df : list NutritionRow)
  (indicator : string) :
  Direction (progress_row nutrition_df indicator)
  = if float_gt0 (Change (progress_row nutrition_df indicator))
    then "Improving" else "Worsening".
Proof.
  unfold progress_row. cbv zeta.
  destruct (String.eqb indicator "Overweight"); reflexivity.
Qed.

Lemma float_gt0_Some (c : R) : float_gt0 (Some c) = true <-> 0 < c.
Proof.
  unfold float_gt0. destruct (Rlt_dec 0 c); split; intros; auto; discriminate.
Qed.

(** A NaN change, from an empty selection, is classified "Worsening". *)
Lemma progress_row_nan (nutrition_df : list NutritionRow) (indicator : string) :
  Change (progress_row nutrition_df indicator) = None ->
  Direction (progress_row nutrition_df indicator) = "Worsening".
Proof.
  intros E. rewrite progress_row_direction, E. reflexivity.
Qed.

Lemma mean_singleton (x : R) : mean [x] = Some x.
Proof.
  unfold mean. cbn [Rsum List.length INR]. f_equal. field.
Qed.

(** C3. With [s] the mean rate of the indicator in 2015 and [e] the mean in
    2023, the change of the progress row is [s - e] for "Stunting" and
    "Wasting" and the reversed [e - s] for "Overweight"; the direction is
    "Improving" when the change is positive and "Worsening" when it is not;
    an "Overweight" rate that increases from 2015 to 2023 is "Improving". *)
Theorem progress_row_delta (nutrition_df : list NutritionRow)
  (indicator : string) (s e : R) :
  mean_rate nutrition_df indicator 2015 = Some s ->
  mean_rate nutrition_df indicator 2023 = Some e ->
  let row := progress_row nutrition_df indicator in
  (indicator = "Stunting" \/ indicator = "Wasting" ->
   Change row = Some (s - e)) /\
  (indicator = "Overweight" -> Change row = Some (e - s)) /\
  (forall c, Change row = Some c ->
     (0 < c -> Direction row = "Improving") /\
     (~ 0 < c -> Direction row = "Worsening")) /\
  (indicator = "Overweight" -> s < e -> Direction row = "Improving").
Proof.
  intros Hs He. cbv zeta.
  assert (forall c, Change (progress_row nutrition_df indicator) = Some c ->
            (0 < c -> Direction (progress_row nutrition_df indicator)
                      = "Improving") /\
            (~ 0 < c -> Direction (progress_row nutrition_df indicator)
                        = "Worsening")) as Hdir.
  { intros c Hc. rewrite progress_row_direction, Hc. unfold float_gt0.
    destruct (Rlt_dec 0 c); split; intros; try reflexivity; contradiction. }
  assert (indicator = "Overweight" ->
          Change (progress_row nutrition_df indicator) = Some (e - s)) as Hover.
  { intros ->. rewrite progress_row_change, Hs, He. reflexivity. }
  split; [|split; [exact Hover|split; [exact Hdir|]]].
  - intros [-> | ->]; rewrite progress_row_change, Hs, He; reflexivity.
  - intros Hi Hlt. apply (proj1 (Hdir (e - s) (Hover Hi))). lra.
Qed.

Lemma progress_row_delta_witness :
  let nutrition_df :=
    [ {| n_Year := 2015; n_Region := "Asia"; n_Indicator := "Overweight";
         Rate := 8 |};
      {| n_Year := 2023; n_Region := "Asia"; n_Indicator := "Overweight";
         Rate := 10 |} ] in
  mean_rate nutrition_df "Overweight" 2015 = Some 8 /\
  mean_rate nutrition_df "Overweight" 2023 = Some 10 /\
  Change (progress_row nutrition_df "Overweight") = Some (10 - 8) /\
  Direction (progress_row nutrition_df "Overweight") = "Improving".
Proof.
  cbv zeta.
  assert (mean_rate
            [ {| n_Year := 2015; n_Region := "Asia";
                 n_Indicator := "Overweight"; Rate := 8 |};
              {| n_Year := 2023; n_Region := "Asia";
                 n_Indicator := "Overweight"; Rate := 10 |} ]
            "Overweight" 2015 = Some 8) as Hs
    by (rewrite <- (mean_singleton 8); reflexivity).
  assert (mean_rate
            [ {| n_Year := 2015; n_Region := "Asia";
                 n_Indicator := "Overweight"; Rate := 8 |};
              {| n_Year := 2023; n_Region := "Asia";
                 n_Indicator := "Overweight"; Rate := 10 |} ]
            "Overweight" 2023 = Some 10) as He
    by (rewrite <- (mean_singleton 10); reflexivity).
  destruct (progress_row_delta _ "Overweight" 8 10 Hs He)
    as (_ & Hchange & _ & Hdir).
  split; [exact Hs|]. split; [exact He|].
  split; [exact (Hchange eq_refl)|]. apply (Hdir eq_refl). lra.
Defined.

(** ** Radar values *)

Lemma iloc0_filter {A} (f : A -> R) (p : A -> bool) (l : list A) (x : R) :
  iloc0 (map f (filter p l)) = Ok x ->
  exists r, In r l /\ p r = true /\ f r = x.
Proof.
  intros H. destruct (filter p l) as [|r l'] eqn:E; [discriminate|].
  cbn [map iloc0] in H. injection H as H.
  assert (In r (filter p l)) as Hin by (rewrite E; left; reflexivity).
  apply filter_In in Hin as [Hin Hp]. exists r. auto.
Qed.

Lemma undernourishment_val_linear (year_und : list UndernourishmentRow)
  (region : string) (v : R) :
  undernourishment_val year_und region = Ok v ->
  exists r, In r year_und /\ u_Region r = region /\
            v = 100 - Undernourishment_Rate r * 3.
Proof.
  unfold undernourishment_val. intros H.
  destruct (iloc0 _) as [rate|e] eqn:E; cbn [rbind] in H; [|discriminate].
  injection H as <-. apply iloc0_filter in E as (r & Hin & Hp & <-).
  apply String.eqb_eq in Hp. exists r. auto.
Qed.

Lemma stunting_val_linear (year_nut : list NutritionRow) (region : string)
  (w : R) :
  stunting_val year_nut region = Ok w ->
  exists r, In r year_nut /\ n_Region r = region /\
            n_Indicator r = "Stunting" /\ w = 100 - Rate r * 2.
Proof.
  unfold stunting_val. intros H.
  destruct (iloc0 _) as [rate|e] eqn:E; cbn [rbind] in H; [|discriminate].
  injection H as <-. apply iloc0_filter in E as (r & Hin & Hp & <-).
  apply andb_true_iff in Hp as [Hr Hi].
  apply String.eqb_eq in Hr, Hi. exists r. auto.
Qed.

(** One row with an undernourishment rate of 40: the radar value is
    [100 - 40 * 3], below 0; nothing clamps it. *)
Lemma undernourishment_val_not_clamped :
  ~ (forall year_und region v,
       undernourishment_val year_und region = Ok v -> 0 <= v <= 100).
Proof.
  intros H.
  specialize (H [ {| u_Year := 2023; u_Region := "Asia";
                     Undernourishment_Rate := 40 |} ] "Asia" (100 - 40 * 3)
                eq_refl).
  lra.
Qed.

(** C5, amended. The radar value of a region is [100 - rate * 3] for the
    undernourishment rate and [100 - rate * 2] for the stunting rate of a
    row of that region, without clamp: it lies between 0 and 100 exactly
    when the rate lies between 0 and 100/3, respectively 0 and 50.  The
    rates of the generated tables do, so that on them both values lie
    between 0 and 100. *)
Theorem radar_values_linear :
  (forall year_und region v,
     undernourishment_val year_und region = Ok v ->
     exists r, In r year_und /\ u_Region r = region /\
               v = 100 - Undernourishment_Rate r * 3 /\
               (0 <= v <= 100 <-> 0 <= Undernourishment_Rate r <= 100 / 3)) /\
  (forall year_nut region w,
     stunting_val year_nut region = Ok w ->
     exists r, In r year_nut /\ n_Region r = region /\
               n_Indicator r = "Stunting" /\
               w = 100 - Rate r * 2 /\
               (0 <= w <= 100 <-> 0 <= Rate r <= 50)) /\
  (forall s selected_year region v w,
     Rand.valid s ->
     let t := Rand.run generate_sdg2_data s in
     undernourishment_val
       (year_undernourishment (undernourishment_df t) selected_year) region
     = Ok v ->
     stunting_val (year_nutrition (nutrition_df t) selected_year) region
     = Ok w ->
     0 <= v <= 100 /\ 0 <= w <= 100).
Proof.
  split; [|split].
  - intros year_und region v H.
    apply undernourishment_val_linear in H as (r & Hin & Hr & Hv).
    exists r. repeat split; try assumption; lra.
  - intros year_nut region w H.
    apply stunting_val_linear in H as (r & Hin & Hr & Hi & Hw).
    exists r. repeat split; try assumption; lra.
  - intros s selected_year region v w Hs t Hv Hw.
    destruct (generate_sdg2_data_range s Hs) as [(Hu & _ & _ & Hn) _].
    apply undernourishment_val_linear in Hv as (r & Hin & _ & ->).
    apply stunting_val_linear in Hw as (r' & Hin' & _ & _ & ->).
    apply filter_In in Hin as [Hin _]. apply filter_In in Hin' as [Hin' _].
    rewrite Forall_forall in Hu, Hn.
    specialize (Hu r Hin). specialize (Hn r' Hin'). cbv beta in Hu, Hn.
    lra.
Qed.

Lemma radar_values_linear_witness :
  Rand.valid (fun _ => 1 / 2) /\
  exists v w,
    let t := Rand.run generate_sdg2_data (fun _ => 1 / 2) in
    undernourishment_val
      (year_undernourishment (undernourishment_df t) 2023) "Asia" = Ok v /\
    stunting_val (year_nutrition (nutrition_df t) 2023) "Asia" = Ok w /\
    0 <= v <= 100 /\ 0 <= w <= 100.
Proof.
  split; [exact valid_half|].
  eexists. eexists. cbv zeta.
  assert (forall v w,
            undernourishment_val
              (year_undernourishment
                 (undernourishment_df
                    (Rand.run generate_sdg2_data (fun _ => 1 / 2))) 2023)
              "Asia" = Ok v ->
            stunting_val
              (year_nutrition
                 (nutrition_df
                    (Rand.run generate_sdg2_data (fun _ => 1 / 2))) 2023)
              "Asia" = Ok w ->
            0 <= v <= 100 /\ 0 <= w <= 100) as H
    by (intros v w;
        exact (proj2 (proj2 radar_values_linear) (fun _ => 1 / 2) 2023%Z
                 "Asia" v w valid_half)).
  split; [reflexivity|]. split; [reflexivity|].
  apply H; reflexivity.
Defined.

(** ** Ranking *)

(** Below a larger value there are at least the values below and the values
    equal to a smaller one. *)
Lemma count_lt_eq_le (l : list R) (a b : R) :
  a < b -> (count_lt l a + count_eq l a <= count_lt l b)%nat.
Proof.
  intros Hab. unfold count_lt, count_eq.
  induction l as [|y l IH]; cbn [filter List.length]; [lia|].
  destruct (Rlt_dec y a), (Req_dec_T y a), (Rlt_dec y b);
    cbn [List.length]; try lia; exfalso; lra.
Qed.

Lemma count_eq_pos (l : list R) (b : R) : In b l -> (1 <= count_eq l b)%nat.
Proof.
  unfold count_eq. induction l as [|y l IH]; intros Hin; [contradiction|].
  cbn [filter]. destruct Hin as [->|Hin].
  - destruct (Req_dec_T b b) as [_|N]; [cbn [List.length]; lia|].
    exfalso. apply N. reflexivity.
  - specialize (IH Hin). destruct (Req_dec_T y b); cbn [List.length]; lia.
Qed.

(** The average rank is strictly monotone on the values of the list. *)
Lemma rank_lt (l : list R) (a b : R) :
  In b l -> a < b -> rank l a < rank l b.
Proof.
  intros Hb Hab. unfold rank.
  pose proof (count_lt_eq_le l a b Hab) as Hle.
  pose proof (count_eq_pos l b Hb) as Hpos.
  apply le_INR in Hle. apply le_INR in Hpos.
  rewrite plus_INR in Hle. cbn [INR] in Hpos.
  pose proof (pos_INR (count_eq l a)) as Ha.
  lra.
Qed.

Lemma insert_by_score_perm (x : FinalRow) (l : list FinalRow) :
  Permutation (insert_by_score x l) (x :: l).
Proof.
  induction l as [|y l IH]; cbn [insert_by_score]; [reflexivity|].
  destruct (Rle_dec (Overall_Score x) (Overall_Score y)); [reflexivity|].
  rewrite IH. apply perm_swap.
Qed.

(** Sorting keeps the rows. *)
Lemma sort_values_perm (l : list FinalRow) : Permutation (sort_values l) l.
Proof.
  unfold sort_values. induction l as [|x l IH]; cbn [fold_right]; [reflexivity|].
  rewrite insert_by_score_perm. apply perm_skip. exact IH.
Qed.

Lemma in_merge_on_region {A B} (region_l : A -> string) (region_r : B -> string)
  (left : list A) (right : list B) (l : A) (r : B) :
  In (l, r) (merge_on_region region_l region_r left right) <->
  In l left /\ In r right /\ region_r r = region_l l.
Proof.
  unfold merge_on_region. rewrite in_flat_map. split.
  - intros (l' & Hl & Hin). apply in_map_iff in Hin as (r' & E & Hr).
    injection E as -> ->. apply filter_In in Hr as [Hr Hreg].
    apply String.eqb_eq in Hreg. auto.
  - intros (Hl & Hr & Hreg). exists l. split; [exact Hl|].
    apply in_map. apply filter_In. split; [exact Hr|].
    apply String.eqb_eq. exact Hreg.
Qed.

(** The rows of the ranking table are the joined rows of the pairs of an
    undernourishment row and a stunting row of one region. *)
Lemma in_final_ranking (undernourishment_df : list UndernourishmentRow)
  (nutrition_df : list NutritionRow) (selected_year : Z) (row : FinalRow) :
  let year_und := year_undernourishment undernourishment_df selected_year in
  let year_nut := year_nutrition nutrition_df selected_year in
  In row (final_ranking undernourishment_df nutrition_df selected_year) <->
  exists u n, In u year_und /\ In n (stunting_rows year_nut) /\
              n_Region n = u_Region u /\
              row = joined_row year_und year_nut u n.
Proof.
  cbv zeta. unfold final_ranking.
  set (year_und := year_undernourishment undernourishment_df selected_year).
  set (year_nut := year_nutrition nutrition_df selected_year).
  split.
  - intros H. apply (Permutation_in _ (sort_values_perm _)) in H.
    apply in_map_iff in H as ([l r] & <- & H).
    apply in_merge_on_region in H as (Hl & Hr & Hreg).
    apply in_map_iff in Hl as (u & <- & Hu).
    apply in_map_iff in Hr as (n & <- & Hn).
    exists u, n. cbn in Hreg. auto.
  - intros (u & n & Hu & Hn & Hreg & ->).
    apply (Permutation_in _ (Permutation_sym (sort_values_perm _))).
    unfold joined_row. apply in_map. apply in_merge_on_region.
    split; [apply in_map; exact Hu|]. split; [apply in_map; exact Hn|].
    exact Hreg.
Qed.

Lemma joined_row_score (year_und : list UndernourishmentRow)
  (year_nut : list NutritionRow) (u : UndernourishmentRow) (n : NutritionRow) :
  Overall_Score (joined_row year_und year_nut u n)
  = (rank (map Undernourishment_Rate year_und) (Undernourishment_Rate u)
     + rank (map Rate (stunting_rows year_nut)) (Rate n)) / 2.
Proof. reflexivity. Qed.

(** C8. In the ranking table of a year, let the row of region A join the
    undernourishment row [ua] and the stunting row [na] of A, and the row of
    region B join [ub] and [nb].  When the undernourishment rate and the
    stunting rate of A are both strictly less than those of B, the
    [Overall_Score] of A's row, the average of its two average-method ranks,
    is strictly less than that of B's row. *)
Theorem overall_score_monotone (undernourishment_df : list UndernourishmentRow)
  (nutrition_df : list NutritionRow) (selected_year : Z)
  (ua ub : UndernourishmentRow) (na nb : NutritionRow) :
  let year_und := year_undernourishment undernourishment_df selected_year in
  let year_nut := year_nutrition nutrition_df selected_year in
  In ua year_und -> In ub year_und ->
  In na (stunting_rows year_nut) -> In nb (stunting_rows year_nut) ->
  n_Region na = u_Region ua -> n_Region nb = u_Region ub ->
  Undernourishment_Rate ua < Undernourishment_Rate ub ->
  Rate na < Rate nb ->
  let row_a := joined_row year_und year_nut ua na in
  let row_b := joined_row year_und year_nut ub nb in
  In row_a (final_ranking undernourishment_df nutrition_df selected_year) /\
  In row_b (final_ranking undernourishment_df nutrition_df selected_year) /\
  f_Region row_a = u_Region ua /\ f_Region row_b = u_Region ub /\
  Overall_Score row_a
  = (Undernourishment_Rank row_a + Stunting_Rank row_a) / 2 /\
  Overall_Score row_b
  = (Undernourishment_Rank row_b + Stunting_Rank row_b) / 2 /\
  Overall_Score row_a < Overall_Score row_b.
Proof.
  intros year_und year_nut Hua Hub Hna Hnb Hra Hrb Hu Hn row_a row_b.
  split; [|split].
  - apply in_final_ranking. exists ua, na. auto.
  - apply in_final_ranking. exists ub, nb. auto.
  - split; [reflexivity|]. split; [reflexivity|].
    split; [reflexivity|]. split; [reflexivity|].
    subst row_a row_b. rewrite !joined_row_score.
    assert (rank (map Undernourishment_Rate year_und) (Undernourishment_Rate ua)
            < rank (map Undernourishment_Rate year_und)
                (Undernourishment_Rate ub)) as H1
      by (apply rank_lt; [apply in_map; exact Hub|exact Hu]).
    assert (rank (map Rate (stunting_rows year_nut)) (Rate na)
            < rank (map Rate (stunting_rows year_nut)) (Rate nb)) as H2
      by (apply rank_lt; [apply in_map; exact Hnb|exact Hn]).
    lra.
Qed.

Lemma overall_score_monotone_witness :
  let europe := {| u_Year := 2023; u_Region := "Europe";
                   Undernourishment_Rate := 2 |} in
  let asia := {| u_Year := 2023; u_Region := "Asia";
                 Undernourishment_Rate := 12 |} in
  let europe_stunting := {| n_Year := 2023; n_Region := "Europe";
                            n_Indicator := "Stunting"; Rate := 3 |} in
  let asia_stunting := {| n_Year := 2023; n_Region := "Asia";
                          n_Indicator := "Stunting"; Rate := 25 |} in
  let undernourishment_df := [asia; europe] in
  let nutrition_df := [asia_stunting; europe_stunting] in
  let year_und := year_undernourishment undernourishment_df 2023 in
  let year_nut := year_nutrition nutrition_df 2023 in
  (In europe year_und /\ In asia year_und) /\
  (In europe_stunting (stunting_rows year_nut) /\
   In asia_stunting (stunting_rows year_nut)) /\
  (n_Region europe_stunting = u_Region europe /\
   n_Region asia_stunting = u_Region asia) /\
  (Undernourishment_Rate europe < Undernourishment_Rate asia /\
   Rate europe_stunting < Rate asia_stunting) /\
  Overall_Score (joined_row year_und year_nut europe europe_stunting)
  < Overall_Score (joined_row year_und year_nut asia asia_stunting).
Proof.
  intros europe asia europe_stunting asia_stunting undernourishment_df
    nutrition_df year_und year_nut.
  assert (In europe year_und) as Hua
    by (apply filter_In; split; [right; left; reflexivity|reflexivity]).
  assert (In asia year_und) as Hub
    by (apply filter_In; split; [left; reflexivity|reflexivity]).
  assert (In europe_stunting (stunting_rows year_nut)) as Hna
    by (apply filter_In; split; [|reflexivity];
        apply filter_In; split; [right; left; reflexivity|reflexivity]).
  assert (In asia_stunting (stunting_rows year_nut)) as Hnb
    by (apply filter_In; split; [|reflexivity];
        apply filter_In; split; [left; reflexivity|reflexivity]).
  assert (Undernourishment_Rate europe < Undernourishment_Rate asia) as Hu
    by (cbn; lra).
  assert (Rate europe_stunting < Rate asia_stunting) as Hn by (cbn; lra).
  split; [split; assumption|]. split; [split; assumption|].
  split; [split; reflexivity|]. split; [split; assumption|].
  apply (overall_score_monotone undernourishment_df nutrition_df 2023
           europe asia europe_stunting asia_stunting
           Hua Hub Hna Hnb eq_refl eq_refl Hu Hn).
Defined.

(** ** Pivot *)

Lemma in_insert_label {K} (eqb ltb : K -> K -> bool) (x y : K) (l : list K) :
  In y (insert_label eqb ltb x l) -> y = x \/ In y l.
Proof.
  induction l as [|z l IH]; cbn [insert_label In].
  - intros [<-|[]]. left. reflexivity.
  - destruct (eqb x z); [cbn [In]; tauto|].
    destruct (ltb x z); cbn [In]; [intuition congruence|].
    intros [<-|H]; [tauto|]. apply IH in H. tauto.
Qed.

(** A label of the result is a label of the input. *)
Lemma in_sorted_labels {K} (eqb ltb : K -> K -> bool) (y : K) (l : list K) :
  In y (sorted_labels eqb ltb l) -> In y l.
Proof.
  unfold sorted_labels. induction l as [|x l IH]; cbn [fold_right In]; [tauto|].
  intros H. apply in_insert_label in H as [->|H]; [left; reflexivity|].
  right. apply IH. exact H.
Qed.

Section PivotFacts.

Context {I C : Type}.
Variables (I_eqb I_ltb : I -> I -> bool) (C_eqb C_ltb : C -> C -> bool).
Hypothesis I_eqb_eq : forall x y, I_eqb x y = true <-> x = y.
Hypothesis C_eqb_eq : forall x y, C_eqb x y = true <-> x = y.

Lemma key_eqb_eq (k k' : I * C) : key_eqb I_eqb C_eqb k k' = true <-> k = k'.
Proof.
  destruct k as [i c], k' as [i' c']. unfold key_eqb. cbn [fst snd].
  rewrite andb_true_iff, I_eqb_eq, C_eqb_eq. split.
  - intros [-> ->]. reflexivity.
  - intros E. injection E as -> ->. auto.
Qed.

Lemma has_duplicates_NoDup (keys : list (I * C)) :
  NoDup keys -> has_duplicates I_eqb C_eqb keys = false.
Proof.
  induction 1 as [|k keys Hk Hnd IH]; cbn [has_duplicates]; [reflexivity|].
  rewrite IH, orb_false_r.
  destruct (existsb (key_eqb I_eqb C_eqb k) keys) eqn:E; [|reflexivity].
  apply existsb_exists in E as (k' & Hin & E).
  apply key_eqb_eq in E. subst k'. contradiction.
Qed.

(** On entries with distinct (index, column) pairs, [pivot] returns a
    matrix. *)
Lemma pivot_unique (entries : list (I * C * R)) :
  NoDup (map fst entries) ->
  exists m, pivot I_eqb I_ltb C_eqb C_ltb entries = Ok m.
Proof.
  intros H. unfold pivot. rewrite (has_duplicates_NoDup _ H).
  eexists. reflexivity.
Qed.

(** The cell of a pair that has an entry is not NaN. *)
Lemma cell_of_entry (entries : list (I * C * R)) (k : I * C) :
  In k (map fst entries) -> cell I_eqb C_eqb entries k <> None.
Proof.
  induction entries as [|[k' v] entries IH]; cbn [map In cell fst];
    [tauto|].
  intros [->|H].
  - rewrite (proj2 (key_eqb_eq k k) eq_refl). discriminate.
  - destruct (key_eqb I_eqb C_eqb k' k); [discriminate|]. apply IH, H.
Qed.

(** When every pair of a row label and a column label has an entry, the
    matrix has no NaN cell. *)
Lemma pivot_complete (entries : list (I * C * R)) (m : Matrix I C) :
  pivot I_eqb I_ltb C_eqb C_ltb entries = Ok m ->
  (forall i c, In i (map (fun e => fst (fst e)) entries) ->
               In c (map (fun e => snd (fst e)) entries) ->
               In (i, c) (map fst entries)) ->
  complete_matrix (List.length (index m)) (List.length (columns m)) m.
Proof.
  unfold pivot. destruct (has_duplicates _ _ _); [discriminate|].
  intros E Hall. injection E as <-. unfold complete_matrix.
  cbn [index columns values]. rewrite length_map.
  split; [reflexivity|]. split; [reflexivity|]. split; [reflexivity|].
  apply Forall_forall. intros row Hrow.
  apply in_map_iff in Hrow as (i & <- & Hi). rewrite length_map.
  split; [reflexivity|].
  apply Forall_forall. intros x Hx. apply in_map_iff in Hx as (c & <- & Hc).
  apply cell_of_entry. apply Hall; eapply in_sorted_labels; eassumption.
Qed.

End PivotFacts.

Lemma NoDup_map_filter {A K K'} (f : A -> K) (g : A -> K') (p : A -> bool)
  (l : list A) :
  (forall x y, In x l -> In y l -> p x = true -> p y = true ->
               g x = g y -> f x = f y) ->
  NoDup (map f l) -> NoDup (map g (filter p l)).
Proof.
  induction l as [|a l IH]; intros Hinj Hnd; cbn [filter map]; [constructor|].
  cbn [map] in Hnd. apply NoDup_cons_iff in Hnd as [Ha Hnd].
  assert (NoDup (map g (filter p l))) as IH'.
  { apply IH; [|exact Hnd]. intros x y Hx Hy. apply Hinj; right; assumption. }
  destruct (p a) eqn:Ea; [|exact IH']. cbn [map]. constructor; [|exact IH'].
  intros Hin. apply in_map_iff in Hin as (b & Eg & Hb).
  apply filter_In in Hb as [Hb Epb]. apply Ha.
  apply in_map_iff. exists b. split; [|exact Hb].
  apply Hinj; auto; [right; exact Hb|left; reflexivity].
Qed.

(** The three projections of the entries that [pivot_data] passes on. *)
Lemma pivot_data_entries (undernourishment_df : list UndernourishmentRow) :
  let entries :=
    map (fun r => (u_Region r, u_Year r, Undernourishment_Rate r))
      undernourishment_df in
  map fst entries = map u_key undernourishment_df /\
  map (fun e => fst (fst e)) entries = map fst (map u_key undernourishment_df) /\
  map (fun e => snd (fst e)) entries = map snd (map u_key undernourishment_df).
Proof.
  cbv zeta. rewrite !map_map. repeat split.
Qed.

Lemma pivot_data_unique (undernourishment_df : list UndernourishmentRow) :
  NoDup (map u_key undernourishment_df) ->
  exists m, pivot_data undernourishment_df = Ok m.
Proof.
  intros H. unfold pivot_data.
  apply (pivot_unique _ _ _ _ String.eqb_eq Z.eqb_eq).
  rewrite (proj1 (pivot_data_entries undernourishment_df)). exact H.
Qed.

(** The pivot of a table whose keys are the cross-product of the regions
    and the years. *)
Lemma pivot_data_cross_product (undernourishment_df : list UndernourishmentRow)
  (m : Matrix string Z) :
  map u_key undernourishment_df = list_prod regions years ->
  pivot_data undernourishment_df = Ok m ->
  complete_matrix 6 9 m.
Proof.
  intros Ek E.
  destruct (pivot_data_entries undernourishment_df) as (E1 & E2 & E3).
  cbv zeta in E1, E2, E3.
  assert (List.length (index m) = 6%nat /\ List.length (columns m) = 9%nat)
    as [Hrows Hcols].
  { unfold pivot_data, pivot in E.
    destruct (has_duplicates _ _ _); [discriminate|].
    injection E as <-. cbn [index columns]. rewrite E2, E3, Ek.
    split; vm_compute; reflexivity. }
  assert (complete_matrix (List.length (index m)) (List.length (columns m)) m)
    as Hm; [|rewrite Hrows, Hcols in Hm; exact Hm].
  apply (pivot_complete _ _ _ _ String.eqb_eq Z.eqb_eq _ m E).
  intros i c Hi Hc. rewrite E1, Ek. rewrite E2, Ek in Hi. rewrite E3, Ek in Hc.
  apply in_map_iff in Hi as ([i' y] & <- & Hi).
  apply in_map_iff in Hc as ([r c'] & <- & Hc).
  apply in_prod_iff in Hi as [Hi _]. apply in_prod_iff in Hc as [_ Hc].
  apply in_prod_iff. auto.
Qed.

(** C9. On a table with one value for every (row, column) pair it holds,
    the two pivots of the views return a matrix: they raise no exception,
    and so no [MissingKeyError].  The pivot of a generated undernourishment
    table on (Region, Year, rate) is a matrix of 6 rows and 9 columns
    without a missing cell. *)
Theorem pivot_never_missing_key :
  (forall undernourishment_df,
     NoDup (map u_key undernourishment_df) ->
     pivot_data undernourishment_df <> Raise MissingKeyError /\
     exists m, pivot_data undernourishment_df = Ok m) /\
  (forall nutrition_df,
     NoDup (map n_key nutrition_df) ->
     nutrition_pivot nutrition_df <> Raise MissingKeyError /\
     exists m, nutrition_pivot nutrition_df = Ok m) /\
  (forall s,
     exists m,
       pivot_data (undernourishment_df (Rand.run generate_sdg2_data s)) = Ok m /\
       complete_matrix 6 9 m).
Proof.
  split; [|split].
  - intros df H. destruct (pivot_data_unique df H) as [m E]. split; [|eauto].
    rewrite E. discriminate.
  - intros df H.
    assert (exists m, nutrition_pivot df = Ok m) as [m E].
    { unfold nutrition_pivot.
      apply (pivot_unique _ _ _ _ String.eqb_eq String.eqb_eq).
      rewrite map_map. cbn [fst].
      apply (NoDup_map_filter n_key); [|exact H].
      intros x y _ _ Hx Hy E. apply Z.eqb_eq in Hx, Hy. unfold n_key.
      congruence. }
    split; [|eauto]. rewrite E. discriminate.
  - intros s. destruct (generated_keys s) as (Ek & _). cbv zeta in Ek.
    assert (NoDup (map u_key
                     (undernourishment_df (Rand.run generate_sdg2_data s))))
      as Hnd.
    { rewrite Ek. apply NoDup_list_prod;
        [apply distinct_NoDup; vm_compute; reflexivity|exact NoDup_years]. }
    destruct (pivot_data_unique _ Hnd) as [m E]. exists m. split; [exact E|].
    exact (pivot_data_cross_product _ m Ek E).
Qed.

Lemma pivot_never_missing_key_witness :
  let undernourishment_df :=
    [ {| u_Year := 2022; u_Region := "Asia"; Undernourishment_Rate := 12 |};
      {| u_Year := 2023; u_Region := "Asia"; Undernourishment_Rate := 11 |} ] in
  NoDup (map u_key undernourishment_df) /\
  pivot_data undernourishment_df <> Raise MissingKeyError /\
  exists m, pivot_data undernourishment_df = Ok m.
Proof.
  cbv zeta.
  assert (NoDup
            (map u_key
               [ {| u_Year := 2022; u_Region := "Asia";
                    Undernourishment_Rate := 12 |};
                 {| u_Year := 2023; u_Region := "Asia";
                    Undernourishment_Rate := 11 |} ])) as H.
  { cbn [map u_key u_Region u_Year]. constructor.
    - cbn [In]. intros [E|[]]. discriminate E.
    - constructor; [intros []|constructor]. }
  split; [exact H|]. exact (proj1 pivot_never_missing_key _ H).
Defined.

(** * Further properties of the views *)

(** ** The loop over the crops *)

Lemma in_unique (l : list string) (x : string) : In x (unique l) <-> In x l.
Proof.
  induction l as [|y l IH]; cbn [unique In]; [tauto|].
  rewrite filter_In, IH, negb_true_iff, String.eqb_neq.
  destruct (string_dec y x) as [->|N]; [tauto|].
  split; [tauto|]. intros [E|H]; [contradiction|]. right. split; congruence.
Qed.

Lemma NoDup_unique (l : list string) : NoDup (unique l).
Proof.
  induction l as [|y l IH]; cbn [unique]; constructor.
  - intros H. apply filter_In in H as [_ H].
    rewrite String.eqb_refl in H. discriminate.
  - apply NoDup_filter. exact IH.
Qed.

Lemma growth_rate_values_present (production_df : list ProductionRow)
  (crop : string) :
  values_at production_df crop 2015 <> [] ->
  values_at production_df crop 2023 <> [] ->
  exists g, growth_rate production_df crop = Ok g.
Proof.
  intros H15 H23. rewrite growth_rate_values.
  destruct (values_at production_df crop 2015); [contradiction|].
  destruct (values_at production_df crop 2023); [contradiction|].
  eexists. reflexivity.
Qed.

Lemma growth_rate_raises (production_df : list ProductionRow) (crop : string)
  (e : exn) :
  growth_rate production_df crop = Raise e ->
  e = IndexError /\
  (values_at production_df crop 2015 = [] \/
   values_at production_df crop 2023 = []).
Proof.
  rewrite growth_rate_values.
  destruct (values_at production_df crop 2015); cbn [iloc0 rbind].
  - intros E. injection E as <-. auto.
  - destruct (values_at production_df crop 2023); cbn [iloc0 rbind].
    + intros E. injection E as <-. auto.
    + discriminate.
Qed.

Lemma growth_rows_ok (production_df : list ProductionRow)
  (crop_list : list string) :
  (forall crop, In crop crop_list ->
     values_at production_df crop 2015 <> [] /\
     values_at production_df crop 2023 <> []) ->
  exists rows,
    growth_rows production_df crop_list = Ok rows /\
    map fst rows = crop_list /\
    forall crop g, In (crop, g) rows -> growth_rate production_df crop = Ok g.
Proof.
  induction crop_list as [|crop rest IH]; intros H; cbn [growth_rows].
  - exists []. repeat split. intros crop g [].
  - destruct (H crop (or_introl eq_refl)) as [H15 H23].
    destruct (growth_rate_values_present _ _ H15 H23) as [g Eg].
    destruct IH as (rows & Erows & Efst & Hrows).
    { intros c Hc. apply H. right. exact Hc. }
    rewrite Eg, Erows. cbn [rbind]. exists ((crop, g) :: rows).
    split; [reflexivity|]. split; [cbn [map fst]; congruence|].
    intros c g' [E|Hin]; [injection E as <- <-; exact Eg|auto].
Qed.

Lemma growth_rows_raises (production_df : list ProductionRow)
  (crop_list : list string) (crop : string) :
  In crop crop_list ->
  values_at production_df crop 2015 = [] \/
  values_at production_df crop 2023 = [] ->
  growth_rows production_df crop_list = Raise IndexError.
Proof.
  intros Hin Hmiss. induction crop_list as [|c rest IH]; [contradiction|].
  cbn [growth_rows].
  destruct (growth_rate production_df c) as [g|e] eqn:Eg; cbn [rbind].
  - destruct Hin as [->|Hin].
    + exfalso. rewrite growth_rate_values in Eg.
      destruct Hmiss as [E|E]; rewrite E in Eg; [discriminate|].
      destruct (values_at production_df crop 2015); discriminate.
    + rewrite (IH Hin). reflexivity.
  - apply growth_rate_raises in Eg as [-> _]. reflexivity.
Qed.

(** X1. The loop over the crops of the table returns one growth rate for
    every distinct crop, in order of first appearance, when every crop has a
    value in 2015 and in 2023; when some crop of the table lacks one of the
    two, the whole loop raises [IndexError]. *)
Theorem growth_rates_all_or_nothing (production_df : list ProductionRow) :
  ((forall crop, In crop (map p_Crop production_df) ->
      values_at production_df crop 2015 <> [] /\
      values_at production_df crop 2023 <> []) ->
   exists rows,
     growth_rates production_df = Ok rows /\
     map fst rows = unique (map p_Crop production_df) /\
     NoDup (map fst rows) /\
     forall crop g, In (crop, g) rows ->
                    growth_rate production_df crop = Ok g) /\
  ((exists crop, In crop (map p_Crop production_df) /\
      (values_at production_df crop 2015 = [] \/
       values_at production_df crop 2023 = [])) ->
   growth_rates production_df = Raise IndexError).
Proof.
  unfold growth_rates. split.
  - intros H.
    destruct (growth_rows_ok production_df (unique (map p_Crop production_df)))
      as (rows & E & Efst & Hrows).
    { intros crop Hc. apply H. apply in_unique. exact Hc. }
    exists rows. split; [exact E|]. split; [exact Efst|].
    split; [rewrite Efst; apply NoDup_unique|exact Hrows].
  - intros (crop & Hin & Hmiss).
    apply (growth_rows_raises _ _ crop); [apply in_unique; exact Hin|exact Hmiss].
Qed.

Lemma growth_rates_all_or_nothing_witness :
  let production_df :=
    [ {| p_Year := 2015; p_Crop := "Cereals"; Production := 100;
         Unit := "Million Tonnes" |};
      {| p_Year := 2023; p_Crop := "Cereals"; Production := 200;
         Unit := "Million Tonnes" |};
      {| p_Year := 2015; p_Crop := "Fish"; Production := 50;
         Unit := "Million Tonnes" |} ] in
  (exists crop, In crop (map p_Crop production_df) /\
     (values_at production_df crop 2015 = [] \/
      values_at production_df crop 2023 = [])) /\
  growth_rates production_df = Raise IndexError.
Proof.
  cbv zeta.
  assert (exists crop,
            In crop
              (map p_Crop
                 [ {| p_Year := 2015; p_Crop := "Cereals"; Production := 100;
                      Unit := "Million Tonnes" |};
                   {| p_Year := 2023; p_Crop := "Cereals"; Production := 200;
                      Unit := "Million Tonnes" |};
                   {| p_Year := 2015; p_Crop := "Fish"; Production := 50;
                      Unit := "Million Tonnes" |} ]) /\
            (values_at
               [ {| p_Year := 2015; p_Crop := "Cereals"; Production := 100;
                    Unit := "Million Tonnes" |};
                 {| p_Year := 2023; p_Crop := "Cereals"; Production := 200;
                    Unit := "Million Tonnes" |};
                 {| p_Year := 2015; p_Crop := "Fish"; Production := 50;
                    Unit := "Million Tonnes" |} ] crop 2015 = [] \/
             values_at
               [ {| p_Year := 2015; p_Crop := "Cereals"; Production := 100;
                    Unit := "Million Tonnes" |};
                 {| p_Year := 2023; p_Crop := "Cereals"; Production := 200;
                    Unit := "Million Tonnes" |};
                 {| p_Year := 2015; p_Crop := "Fish"; Production := 50;
                    Unit := "Million Tonnes" |} ] crop 2023 = [])) as H.
  { exists "Fish". split; [right; right; left; reflexivity|].
    right. reflexivity. }
  split; [exact H|]. exact (proj2 (growth_rates_all_or_nothing _) H).
Defined.

(** ** Growth rates of a generated table *)

(** The two endpoint values of a crop in a generated table share the draw
    of the base production of the crop. *)
Lemma generated_endpoints (s : Rand.rng) (crop : string) :
  In crop crops ->
  exists i j k : nat,
    values_at (production_df (Rand.run generate_sdg2_data s)) crop 2015
    = [production_value (s i) 2015 (s j)] /\
    values_at (production_df (Rand.run generate_sdg2_data s)) crop 2023
    = [production_value (s i) 2023 (s k)].
Proof.
  unfold crops. cbn [In].
  intros [<-|[<-|[<-|[<-|[<-|[<-|[]]]]]]].
  - exists 54%nat, 55%nat, 63%nat. split; reflexivity.
  - exists 64%nat, 65%nat, 73%nat. split; reflexivity.
  - exists 74%nat, 75%nat, 83%nat. split; reflexivity.
  - exists 84%nat, 85%nat, 93%nat. split; reflexivity.
  - exists 94%nat, 95%nat, 103%nat. split; reflexivity.
  - exists 104%nat, 105%nat, 113%nat. split; reflexivity.
Qed.

Lemma Rpower_gt_1 (x y : R) : 1 < x -> 0 < y -> 1 < Rpower x y.
Proof.
  intros Hx Hy. unfold Rpower. rewrite <- exp_0. apply exp_increasing.
  apply Rmult_lt_0_compat; [exact Hy|].
  rewrite <- ln_1. apply ln_increasing; lra.
Qed.

Lemma Rpower_eighth_lt (x b : R) :
  0 < x -> 0 < b -> x < b ^ 8 -> Rpower x (1 / 8) < b.
Proof.
  intros Hx Hb Hlt.
  rewrite <- (Rpower_1 b Hb) at 1.
  replace 1 with (INR 8 * (1 / 8)) at 2 by (cbn [INR]; field).
  rewrite <- Rpower_mult, Rpower_pow by exact Hb.
  apply Rlt_Rpower_l; lra.
Qed.

(** From 2015 to 2023 the production of a crop grows by more than the noise
    can take away: the ratio of the endpoint values lies between 1 and
    [1.04 ^ 8]. *)
Lemma production_value_ratio (u_base u_15 u_23 : R) :
  0 <= u_base < 1 -> 0 <= u_15 < 1 -> 0 <= u_23 < 1 ->
  0 < production_value u_base 2015 u_15 /\
  0 < production_value u_base 2023 u_23 /\
  1 < production_value u_base 2023 u_23 / production_value u_base 2015 u_15
    < 1.04 ^ 8.
Proof.
  intros Hb H15 H23. unfold production_value.
  change (2015 - 2015)%Z with 0%Z. change (2023 - 2015)%Z with 8%Z.
  change (powerRZ 1.02 0) with 1. change (powerRZ 1.02 8) with (1.02 ^ 8).
  set (base := 100 + (500 - 100) * u_base).
  set (n15 := 0.95 + (1.05 - 0.95) * u_15).
  set (n23 := 0.95 + (1.05 - 0.95) * u_23).
  assert (100 <= base) by (unfold base; lra).
  assert (0.95 <= n15 <= 1.05) by (unfold n15; lra).
  assert (0.95 <= n23 <= 1.05) by (unfold n23; lra).
  assert (1.17 < 1.02 ^ 8 < 1.18) as Hpow by (cbn [pow]; lra).
  assert (1.36 < 1.04 ^ 8) as Hpow' by (cbn [pow]; lra).
  set (p := 1.02 ^ 8) in *. set (q := 1.04 ^ 8) in *.
  assert (0 < base * 1 * n15) as Hv15
    by (apply Rmult_lt_0_compat; [apply Rmult_lt_0_compat|]; lra).
  assert (0 < base * p * n23) as Hv23
    by (apply Rmult_lt_0_compat; [apply Rmult_lt_0_compat|]; lra).
  split; [exact Hv15|]. split; [exact Hv23|].
  replace (base * p * n23 / (base * 1 * n15)) with (p * n23 / n15)
    by (field; lra).
  split.
  - apply Rmult_lt_reg_r with n15; [lra|].
    replace (p * n23 / n15 * n15) with (p * n23) by (field; lra). nra.
  - apply Rmult_lt_reg_r with n15; [lra|].
    replace (p * n23 / n15 * n15) with (p * n23) by (field; lra). nra.
Qed.

(** X2. On a generated table the loop over the crops raises nothing: it
    returns the growth rates of the six crops, in the order of the crop
    list.  When the draws lie in [0, 1), every rate is a number strictly
    between 0 and 4 percent. *)
Theorem generated_growth_rates (s : Rand.rng) :
  exists rows,
    growth_rates (production_df (Rand.run generate_sdg2_data s)) = Ok rows /\
    map fst rows = crops /\
    (Rand.valid s ->
     forall crop g, In (crop, g) rows -> exists x, g = Some x /\ 0 < x < 4).
Proof.
  set (df := production_df (Rand.run generate_sdg2_data s)).
  assert (map p_Crop df = map fst (list_prod crops years)) as Ecrops.
  { destruct (generated_keys s) as (_ & Ep & _). cbv zeta in Ep.
    fold df in Ep. rewrite <- Ep, map_map. reflexivity. }
  assert (unique (map p_Crop df) = crops) as Eu
    by (rewrite Ecrops; vm_compute; reflexivity).
  destruct (growth_rows_ok df crops) as (rows & E & Efst & Hrows).
  { intros crop Hc.
    destruct (generated_endpoints s crop Hc) as (i & j & k & E15 & E23).
    fold df in E15, E23. rewrite E15, E23. split; discriminate. }
  exists rows. unfold growth_rates. rewrite Eu.
  split; [exact E|]. split; [exact Efst|].
  intros Hs crop g Hin.
  assert (In crop crops) as Hc
    by (rewrite <- Efst; apply (in_map fst _ _ Hin)).
  apply Hrows in Hin. rewrite growth_rate_values in Hin.
  destruct (generated_endpoints s crop Hc) as (i & j & k & E15 & E23).
  fold df in E15, E23. rewrite E15, E23 in Hin. cbn [iloc0 rbind] in Hin.
  destruct (production_value_ratio (s i) (s j) (s k) (Hs i) (Hs j) (Hs k))
    as (Hv15 & Hv23 & Hlo & Hhi).
  rewrite (annual_growth_formula_positive _ _ Hv15 Hv23) in Hin.
  injection Hin as <-. eexists. split; [reflexivity|].
  pose proof (Rpower_gt_1 _ (1 / 8) Hlo ltac:(lra)) as Hroot.
  assert (Rpower (production_value (s i) 2023 (s k)
                  / production_value (s i) 2015 (s j)) (1 / 8) < 1.04)
    as Hroot' by (apply Rpower_eighth_lt; lra).
  lra.
Qed.

Lemma generated_growth_rates_witness :
  Rand.valid (fun _ => 1 / 2) /\
  exists rows,
    growth_rates (production_df (Rand.run generate_sdg2_data (fun _ => 1 / 2)))
    = Ok rows /\
    map fst rows = crops /\
    forall crop g, In (crop, g) rows -> exists x, g = Some x /\ 0 < x < 4.
Proof.
  split; [exact valid_half|].
  destruct (generated_growth_rates (fun _ => 1 / 2)) as (rows & E & Efst & H).
  exists rows. split; [exact E|]. split; [exact Efst|]. exact (H valid_half).
Defined.

(** ** Progress tracking: empty selections and generated tables *)

Lemma mean_rate_None (nutrition_df : list NutritionRow) (indicator : string)
  (year : Z) :
  mean_rate nutrition_df indicator year = None <->
  forall r, In r nutrition_df -> n_Indicator r = indicator -> n_Year r <> year.
Proof.
  unfold mean_rate. rewrite filter_filter. split.
  - intros H r Hin Hi Hy.
    assert (In r (filter (fun x => String.eqb (n_Indicator x) indicator
                                   && Z.eqb (n_Year x) year) nutrition_df))
      as Hf.
    { apply filter_In. split; [exact Hin|].
      apply andb_true_iff. split; [apply String.eqb_eq|apply Z.eqb_eq];
        assumption. }
    destruct (filter _ nutrition_df); [contradiction|discriminate].
  - intros H.
    destruct (filter _ nutrition_df) as [|r l] eqn:E; [reflexivity|].
    exfalso.
    assert (In r (filter (fun x => String.eqb (n_Indicator x) indicator
                                   && Z.eqb (n_Year x) year) nutrition_df))
      as Hf by (rewrite E; left; reflexivity).
    apply filter_In in Hf as [Hin Hp]. apply andb_true_iff in Hp as [Hi Hy].
    apply String.eqb_eq in Hi. apply Z.eqb_eq in Hy. exact (H r Hin Hi Hy).
Qed.

(** X3. When the table has no row of the indicator for 2015, or none for
    2023, the progress row raises nothing: its change is NaN and its
    direction reads "Worsening". *)
Theorem progress_row_empty_selection (nutrition_df : list NutritionRow)
  (indicator : string) :
  (forall r, In r nutrition_df -> n_Indicator r = indicator ->
             n_Year r <> 2015%Z) \/
  (forall r, In r nutrition_df -> n_Indicator r = indicator ->
             n_Year r <> 2023%Z) ->
  Change (progress_row nutrition_df indicator) = None /\
  Direction (progress_row nutrition_df indicator) = "Worsening".
Proof.
  intros H.
  assert (Change (progress_row nutrition_df indicator) = None) as E.
  { rewrite progress_row_change.
    destruct H as [H|H]; apply mean_rate_None in H; rewrite H; clear H;
      destruct (String.eqb indicator "Overweight");
      destruct (mean_rate nutrition_df indicator _); reflexivity. }
  split; [exact E|]. apply progress_row_nan. exact E.
Qed.

Lemma progress_row_empty_selection_witness :
  let nutrition_df :=
    [ {| n_Year := 2015; n_Region := "Asia"; n_Indicator := "Stunting";
         Rate := 25 |} ] in
  ((forall r, In r nutrition_df -> n_Indicator r = "Stunting" ->
              n_Year r <> 2015%Z) \/
   (forall r, In r nutrition_df -> n_Indicator r = "Stunting" ->
              n_Year r <> 2023%Z)) /\
  Change (progress_row nutrition_df "Stunting") = None /\
  Direction (progress_row nutrition_df "Stunting") = "Worsening".
Proof.
  cbv zeta.
  assert ((forall r,
             In r [ {| n_Year := 2015; n_Region := "Asia";
                       n_Indicator := "Stunting"; Rate := 25 |} ] ->
             n_Indicator r = "Stunting" -> n_Year r <> 2015%Z) \/
          (forall r,
             In r [ {| n_Year := 2015; n_Region := "Asia";
                       n_Indicator := "Stunting"; Rate := 25 |} ] ->
             n_Indicator r = "Stunting" -> n_Year r <> 2023%Z)) as H.
  { right. intros r [<-|[]] _. cbn [n_Year]. discriminate. }
  split; [exact H|]. exact (progress_row_empty_selection _ "Stunting" H).
Defined.

(** The rates that the progress loop averages, on a generated table. *)
Lemma generated_indicator_rates (s : Rand.rng) (indicator : string) :
  In indicator indicators ->
  exists j,
    map Rate
      (filter (fun r => Z.eqb (n_Year r) 2015)
         (filter (fun r => String.eqb (n_Indicator r) indicator)
            (nutrition_df (Rand.run generate_sdg2_data s))))
    = nutrition_rates s indicator j 2015 0 /\
    map Rate
      (filter (fun r => Z.eqb (n_Year r) 2023)
         (filter (fun r => String.eqb (n_Indicator r) indicator)
            (nutrition_df (Rand.run generate_sdg2_data s))))
    = nutrition_rates s indicator j 2023 8.
Proof.
  unfold indicators. cbn [In]. intros [<-|[<-|[<-|[]]]].
  - exists 0%nat. split; reflexivity.
  - exists 1%nat. split; reflexivity.
  - exists 2%nat. split; reflexivity.
Qed.

(** Every base rate of the nutrition table is at least 1. *)
Lemma base_rates_at_least_1 (region indicator : string) :
  In region regions -> In indicator indicators ->
  1 <= subscript (subscript base_rates indicator []) region 0.
Proof.
  unfold regions, indicators. cbn [In].
  intros [<-|[<-|[<-|[<-|[<-|[<-|[]]]]]]] [<-|[<-|[<-|[]]]];
    lazy beta iota zeta
      delta [subscript base_rates String.eqb Ascii.eqb Bool.eqb andb];
    lra.
Qed.

(** Between 2015 and 2023 the trend outweighs the noise: the rate of a
    region falls for "Stunting" and "Wasting" and rises for "Overweight". *)
Lemma nutrition_rate_trend (region indicator : string) (u u' : R) :
  In region regions -> In indicator indicators ->
  0 <= u < 1 -> 0 <= u' < 1 ->
  if String.eqb indicator "Overweight"
  then nutrition_rate region indicator 2015 u
       < nutrition_rate region indicator 2023 u'
  else nutrition_rate region indicator 2023 u'
       < nutrition_rate region indicator 2015 u.
Proof.
  intros Hr Hi Hu Hu'. unfold nutrition_rate.
  pose proof (base_rates_at_least_1 region indicator Hr Hi) as Hbase.
  change (2015 - 2015)%Z with 0%Z. change (2023 - 2015)%Z with 8%Z.
  set (b := subscript (subscript base_rates indicator []) region 0) in *.
  destruct (String.eqb indicator "Overweight"); cbn [negb].
  - rewrite (Rmax_right 0 (b + 0.2 * 0 + _)) by lra.
    rewrite (Rmax_right 0 (b + 0.2 * 8 + _)) by lra. lra.
  - rewrite (Rmax_right 0 (b + -0.3 * 0 + _)) by lra.
    apply Rmax_lub_lt; lra.
Qed.

Lemma Rsum_lt (l l' : list R) :
  Forall2 Rlt l l' -> l <> [] -> Rsum l < Rsum l'.
Proof.
  induction 1 as [|x y l l' Hxy Hl IH]; intros Hne; [contradiction|].
  cbn [Rsum]. destruct l as [|x' l].
  - inversion Hl. subst. cbn [Rsum]. lra.
  - assert (Rsum (x' :: l) < Rsum l') by (apply IH; discriminate). lra.
Qed.

(** The mean of a list that is below another, element by element. *)
Lemma mean_lt (l l' : list R) :
  Forall2 Rlt l l' -> l <> [] ->
  exists m m', mean l = Some m /\ mean l' = Some m' /\ m < m'.
Proof.
  intros H Hne. pose proof (Rsum_lt l l' H Hne) as Hsum.
  pose proof (Forall2_length H) as Hlen.
  destruct l as [|x l]; [contradiction|]. destruct l' as [|y l']; [discriminate|].
  unfold mean. rewrite <- Hlen. eexists. eexists.
  split; [reflexivity|]. split; [reflexivity|].
  assert (0 < INR (List.length (x :: l))) as Hn
    by (apply lt_0_INR; cbn [List.length]; lia).
  apply Rmult_lt_compat_r; [apply Rinv_0_lt_compat; exact Hn|exact Hsum].
Qed.

Lemma generated_rates_trend (s : Rand.rng) (indicator : string) (j : nat) :
  Rand.valid s -> In indicator indicators ->
  if String.eqb indicator "Overweight"
  then Forall2 Rlt (nutrition_rates s indicator j 2015 0)
                   (nutrition_rates s indicator j 2023 8)
  else Forall2 Rlt (nutrition_rates s indicator j 2023 8)
                   (nutrition_rates s indicator j 2015 0).
Proof.
  intros Hs Hi. unfold nutrition_rates.
  assert (forall i region, In region regions ->
            if String.eqb indicator "Overweight"
            then nutrition_rate region indicator 2015
                   (s (nutrition_draw i j 0))
                 < nutrition_rate region indicator 2023
                     (s (nutrition_draw i j 8))
            else nutrition_rate region indicator 2023
                   (s (nutrition_draw i j 8))
                 < nutrition_rate region indicator 2015
                     (s (nutrition_draw i j 0))) as H
    by (intros i region Hr; apply nutrition_rate_trend; auto).
  assert (Forall (fun ir => In (snd ir) regions) (combine (seq 0 6) regions))
    as Hall.
  { apply Forall_forall. intros [i region] Hin. cbn [snd].
    apply (in_combine_r _ _ _ _ Hin). }
  induction Hall as [|[i region] l Hr Hl IH]; cbn [map].
  - destruct (String.eqb indicator "Overweight"); constructor.
  - specialize (H i region Hr).
    destruct (String.eqb indicator "Overweight"); constructor; assumption.
Qed.

(** X4. On every run whose draws lie in [0, 1), progress tracking has the
    three rows "Stunting", "Wasting" and "Overweight", each with a positive
    change and the direction "Improving". *)
Theorem generated_progress_improving (s : Rand.rng) :
  Rand.valid s ->
  let rows := progress_data (nutrition_df (Rand.run generate_sdg2_data s)) in
  map pr_Indicator rows = indicators /\
  Forall (fun row => (exists c, Change row = Some c /\ 0 < c) /\
                     Direction row = "Improving") rows.
Proof.
  intros Hs. cbv zeta. unfold progress_data.
  set (df := nutrition_df (Rand.run generate_sdg2_data s)).
  assert (unique (map n_Indicator df) = indicators) as Eu.
  { destruct (generated_keys s) as (_ & _ & _ & En). cbv zeta in En. fold df in En.
    replace (map n_Indicator df) with (map (fun k => snd (fst k)) (map n_key df))
      by (rewrite map_map; reflexivity).
    rewrite En. vm_compute. reflexivity. }
  rewrite Eu. split.
  - rewrite map_map. reflexivity.
  - apply Forall_forall. intros row Hrow.
    apply in_map_iff in Hrow as (indicator & <- & Hi).
    assert (exists c, Change (progress_row df indicator) = Some c /\ 0 < c)
      as (c & Ec & Hc).
    { rewrite progress_row_change. unfold mean_rate.
      destruct (generated_indicator_rates s indicator Hi) as (j & E15 & E23).
      fold df in E15, E23. rewrite E15, E23.
      pose proof (generated_rates_trend s indicator j Hs Hi) as Ht.
      assert (nutrition_rates s indicator j 2015 0 <> []) as N15
        by (unfold nutrition_rates; discriminate).
      assert (nutrition_rates s indicator j 2023 8 <> []) as N23
        by (unfold nutrition_rates; discriminate).
      destruct (String.eqb indicator "Overweight").
      - destruct (mean_lt _ _ Ht N15) as (m & m' & -> & -> & Hlt).
        exists (m' - m). split; [reflexivity|lra].
      - destruct (mean_lt _ _ Ht N23) as (m & m' & -> & -> & Hlt).
        exists (m' - m). split; [reflexivity|lra]. }
    split; [exists c; auto|].
    rewrite progress_row_direction, Ec.
    rewrite (proj2 (float_gt0_Some c) Hc). reflexivity.
Qed.

Lemma generated_progress_improving_witness :
  Rand.valid (fun _ => 1 / 2) /\
  let rows :=
    progress_data (nutrition_df (Rand.run generate_sdg2_data (fun _ => 1 / 2))) in
  map pr_Indicator rows = indicators /\
  Forall (fun row => (exists c, Change row = Some c /\ 0 < c) /\
                     Direction row = "Improving") rows.
Proof.
  split; [exact valid_half|].
  exact (generated_progress_improving (fun _ => 1 / 2) valid_half).
Defined.

(** ** The ranking table: order, range of the ranks, generated tables *)

Lemma insert_by_score_sorted (x : FinalRow) (l : list FinalRow) :
  ascending_scores l -> ascending_scores (insert_by_score x l).
Proof.
  unfold ascending_scores. induction l as [|y l IH]; intros Hl.
  - cbn [insert_by_score]. constructor; constructor.
  - cbn [insert_by_score]. apply StronglySorted_inv in Hl as [Hl Hy].
    destruct (Rle_dec (Overall_Score x) (Overall_Score y)) as [Hxy|Hxy].
    + constructor; [constructor; assumption|].
      constructor; [exact Hxy|].
      eapply Forall_impl; [|exact Hy]. cbv beta. intros z Hz. lra.
    + constructor; [apply IH; exact Hl|].
      apply Forall_forall. intros z Hz.
      apply (Permutation_in _ (insert_by_score_perm x l)) in Hz.
      destruct Hz as [<-|Hz]; [lra|].
      rewrite Forall_forall in Hy. apply Hy. exact Hz.
Qed.

Lemma sort_values_sorted (l : list FinalRow) : ascending_scores (sort_values l).
Proof.
  unfold sort_values. induction l as [|x l IH]; cbn [fold_right].
  - constructor.
  - apply insert_by_score_sorted. exact IH.
Qed.

(** X5. The ranking table is in ascending order of [Overall_Score], and it
    has the rows of the merge, each as often as the merge has it. *)
Theorem final_ranking_sorted (undernourishment_df : list UndernourishmentRow)
  (nutrition_df : list NutritionRow) (selected_year : Z) :
  let year_und := year_undernourishment undernourishment_df selected_year in
  let year_nut := year_nutrition nutrition_df selected_year in
  ascending_scores (final_ranking undernourishment_df nutrition_df selected_year) /\
  Permutation
    (final_ranking undernourishment_df nutrition_df selected_year)
    (map score_row
       (merge_on_region rk_Region fst
          (ranking_data year_und) (stunting_ranks year_nut))).
Proof.
  cbv zeta. unfold final_ranking. split.
  - apply sort_values_sorted.
  - apply sort_values_perm.
Qed.

Lemma count_lt_eq_length (l : list R) (x : R) :
  (count_lt l x + count_eq l x <= List.length l)%nat.
Proof.
  unfold count_lt, count_eq.
  induction l as [|y l IH]; cbn [filter List.length]; [lia|].
  destruct (Rlt_dec y x), (Req_dec_T y x); cbn [List.length]; try lia.
  exfalso. lra.
Qed.

(** The average rank of a value of the column lies between 1 and the number
    of values. *)
Lemma rank_range (l : list R) (x : R) :
  In x l -> 1 <= rank l x <= INR (List.length l).
Proof.
  intros Hin. unfold rank.
  pose proof (count_eq_pos l x Hin) as Hpos.
  pose proof (count_lt_eq_length l x) as Hlen.
  apply le_INR in Hpos, Hlen. rewrite plus_INR in Hlen. cbn [INR] in Hpos.
  pose proof (pos_INR (count_lt l x)). lra.
Qed.

Lemma joined_row_range (year_und : list UndernourishmentRow)
  (year_nut : list NutritionRow) (u : UndernourishmentRow) (n : NutritionRow) :
  In u year_und -> In n (stunting_rows year_nut) ->
  let row := joined_row year_und year_nut u n in
  1 <= Undernourishment_Rank row <= INR (List.length year_und) /\
  1 <= Stunting_Rank row <= INR (List.length (stunting_rows year_nut)) /\
  1 <= Overall_Score row
  <= (INR (List.length year_und)
      + INR (List.length (stunting_rows year_nut))) / 2.
Proof.
  intros Hu Hn. cbv zeta.
  pose proof (rank_range (map Undernourishment_Rate year_und)
                (Undernourishment_Rate u) (in_map _ _ _ Hu)) as H1.
  pose proof (rank_range (map Rate (stunting_rows year_nut)) (Rate n)
                (in_map _ _ _ Hn)) as H2.
  rewrite length_map in H1, H2.
  rewrite joined_row_score.
  change (Undernourishment_Rank (joined_row year_und year_nut u n))
    with (rank (map Undernourishment_Rate year_und) (Undernourishment_Rate u)).
  change (Stunting_Rank (joined_row year_und year_nut u n))
    with (rank (map Rate (stunting_rows year_nut)) (Rate n)).
  lra.
Qed.

(** X6. For every row of the ranking table, the undernourishment rank lies
    between 1 and the number of undernourishment rows of the year, the
    stunting rank between 1 and the number of stunting rows of the year,
    and the overall score between 1 and the mean of the two numbers. *)
Theorem final_ranking_range (undernourishment_df : list UndernourishmentRow)
  (nutrition_df : list NutritionRow) (selected_year : Z) (row : FinalRow) :
  In row (final_ranking undernourishment_df nutrition_df selected_year) ->
  let n_und :=
    INR (List.length (year_undernourishment undernourishment_df selected_year)) in
  let n_stunting :=
    INR (List.length (stunting_rows (year_nutrition nutrition_df selected_year))) in
  1 <= Undernourishment_Rank row <= n_und /\
  1 <= Stunting_Rank row <= n_stunting /\
  1 <= Overall_Score row <= (n_und + n_stunting) / 2.
Proof.
  intros Hin. cbv zeta.
  apply in_final_ranking in Hin as (u & n & Hu & Hn & _ & ->).
  apply joined_row_range; assumption.
Qed.

Lemma final_ranking_range_witness :
  let europe := {| u_Year := 2023; u_Region := "Europe";
                   Undernourishment_Rate := 2 |} in
  let europe_stunting := {| n_Year := 2023; n_Region := "Europe";
                            n_Indicator := "Stunting"; Rate := 3 |} in
  let row := joined_row [europe] [europe_stunting] europe europe_stunting in
  In row (final_ranking [europe] [europe_stunting] 2023) /\
  1 <= Overall_Score row <= (INR 1 + INR 1) / 2.
Proof.
  cbv zeta.
  assert (In (joined_row
                [ {| u_Year := 2023; u_Region := "Europe";
                     Undernourishment_Rate := 2 |} ]
                [ {| n_Year := 2023; n_Region := "Europe";
                     n_Indicator := "Stunting"; Rate := 3 |} ]
                {| u_Year := 2023; u_Region := "Europe";
                   Undernourishment_Rate := 2 |}
                {| n_Year := 2023; n_Region := "Europe";
                   n_Indicator := "Stunting"; Rate := 3 |})
            (final_ranking
               [ {| u_Year := 2023; u_Region := "Europe";
                    Undernourishment_Rate := 2 |} ]
               [ {| n_Year := 2023; n_Region := "Europe";
                    n_Indicator := "Stunting"; Rate := 3 |} ] 2023)) as H
    by (left; reflexivity).
  split; [exact H|].
  exact (proj2 (proj2 (final_ranking_range _ _ 2023 _ H))).
Defined.

(** The regions of the merge, on a generated table and a year of the
    slider. *)
Lemma generated_merge_regions (s : Rand.rng) (selected_year : Z) :
  In selected_year years ->
  let t := Rand.run generate_sdg2_data s in
  let year_und := year_undernourishment (undernourishment_df t) selected_year in
  let year_nut := year_nutrition (nutrition_df t) selected_year in
  map u_Region year_und = regions /\
  map n_Region (stunting_rows year_nut) = regions /\
  map f_Region
    (map score_row
       (merge_on_region rk_Region fst
          (ranking_data year_und) (stunting_ranks year_nut))) = regions.
Proof.
  unfold years. cbn [In]. cbv zeta.
  intros [<-|[<-|[<-|[<-|[<-|[<-|[<-|[<-|[<-|[]]]]]]]]]];
    (split; [|split]); reflexivity.
Qed.

(** X7. On a generated table and for every year of the slider, the ranking
    table has six rows, one for each region, and every rank and overall
    score lies between 1 and 6. *)
Theorem generated_final_ranking (s : Rand.rng) (selected_year : Z) :
  In selected_year years ->
  let t := Rand.run generate_sdg2_data s in
  let table :=
    final_ranking (undernourishment_df t) (nutrition_df t) selected_year in
  Permutation (map f_Region table) regions /\
  List.length table = 6%nat /\
  Forall (fun row => 1 <= Undernourishment_Rank row <= 6 /\
                     1 <= Stunting_Rank row <= 6 /\
                     1 <= Overall_Score row <= 6) table.
Proof.
  intros Hyear. cbv zeta.
  destruct (generated_merge_regions s selected_year Hyear) as (Eu & En & Em).
  cbv zeta in Eu, En, Em.
  set (t := Rand.run generate_sdg2_data s) in *.
  set (year_und := year_undernourishment (undernourishment_df t) selected_year)
    in *.
  set (year_nut := year_nutrition (nutrition_df t) selected_year) in *.
  assert (Permutation
            (map f_Region
               (final_ranking (undernourishment_df t) (nutrition_df t)
                  selected_year)) regions) as Hperm.
  { rewrite <- Em. apply Permutation_map. unfold final_ranking.
    apply sort_values_perm. }
  split; [exact Hperm|]. split.
  - rewrite <- (length_map f_Region). rewrite (Permutation_length Hperm).
    reflexivity.
  - apply Forall_forall. intros row Hrow.
    apply in_final_ranking in Hrow as (u & n & Hu & Hn & _ & ->).
    pose proof (joined_row_range year_und year_nut u n Hu Hn) as H.
    cbv zeta in H.
    assert (List.length year_und = 6%nat) as Lu
      by (rewrite <- (length_map u_Region), Eu; reflexivity).
    assert (List.length (stunting_rows year_nut) = 6%nat) as Ln
      by (rewrite <- (length_map n_Region), En; reflexivity).
    rewrite Lu, Ln in H. cbn [INR] in H. unfold year_und, year_nut in H. lra.
Qed.

Lemma generated_final_ranking_witness :
  In 2023%Z years /\
  let t := Rand.run generate_sdg2_data (fun _ => 1 / 2) in
  let table := final_ranking (undernourishment_df t) (nutrition_df t) 2023 in
  Permutation (map f_Region table) regions /\ List.length table = 6%nat.
Proof.
  assert (In 2023%Z years) as H by (unfold years; cbn [In]; tauto).
  split; [exact H|].
  destruct (generated_final_ranking (fun _ => 1 / 2) 2023 H) as (Hp & Hl & _).
  split; [exact Hp|exact Hl].
Defined.

(** ** The ranks of a column add up *)

Lemma count_trichotomy (l : list R) (x : R) :
  (count_lt l x + count_eq l x + count_gt l x = List.length l)%nat.
Proof.
  unfold count_lt, count_eq, count_gt.
  induction l as [|y l IH]; cbn [filter List.length]; [reflexivity|].
  destruct (Rlt_dec y x), (Req_dec_T y x), (Rlt_dec x y);
    cbn [List.length]; try lia; exfalso; lra.
Qed.

Lemma list_sum_cons (a : nat) (l : list nat) :
  list_sum (a :: l) = (a + list_sum l)%nat.
Proof. reflexivity. Qed.

Lemma list_sum_map_add {A} (f g : A -> nat) (l : list A) :
  list_sum (map (fun x => (f x + g x)%nat) l)
  = (list_sum (map f l) + list_sum (map g l))%nat.
Proof.
  induction l as [|x l IH]; cbn [map]; [reflexivity|].
  rewrite !list_sum_cons, IH. lia.
Qed.

Lemma list_sum_indicator (l : list R) (x : R) :
  list_sum (map (fun y => if Rlt_dec y x then 1%nat else 0%nat) l)
  = count_lt l x.
Proof.
  unfold count_lt. induction l as [|y l IH]; cbn [map filter];
    [reflexivity|].
  rewrite list_sum_cons, IH.
  destruct (Rlt_dec y x); cbn [List.length]; lia.
Qed.

(** Counting the pairs of a smaller and a larger value from either side. *)
Lemma count_lt_gt_swap (l1 l2 : list R) :
  list_sum (map (count_lt l2) l1) = list_sum (map (count_gt l1) l2).
Proof.
  induction l1 as [|x l1 IH]; cbn [map].
  - induction l2 as [|y l2 IH2]; cbn [map]; [reflexivity|].
    rewrite list_sum_cons, <- IH2. reflexivity.
  - rewrite list_sum_cons, IH, <- (list_sum_indicator l2 x),
      <- list_sum_map_add.
    f_equal. apply map_ext. intros y. unfold count_gt. cbn [filter].
    destruct (Rlt_dec y x); cbn [List.length]; lia.
Qed.

Lemma Rsum_rank (l l' : list R) :
  Rsum (map (rank l) l')
  = INR (list_sum (map (count_lt l) l'))
    + (INR (list_sum (map (count_eq l) l')) + INR (List.length l')) / 2.
Proof.
  induction l' as [|x l' IH].
  - cbn. lra.
  - cbn [map Rsum List.length]. rewrite !list_sum_cons, IH. unfold rank.
    rewrite !plus_INR, S_INR. lra.
Qed.

Lemma list_sum_const {A} (l : list A) (n : nat) :
  list_sum (map (fun _ => n) l) = (List.length l * n)%nat.
Proof.
  induction l as [|x l IH]; cbn [map List.length]; [reflexivity|].
  rewrite list_sum_cons, IH. lia.
Qed.

(** The average ranks of the [n] values of a column add up to
    [n (n + 1) / 2], ties or not. *)
Lemma rank_sum (l : list R) :
  Rsum (map (rank l) l)
  = INR (List.length l) * (INR (List.length l) + 1) / 2.
Proof.
  rewrite Rsum_rank.
  assert (list_sum (map (fun x => (count_lt l x + count_eq l x
                                   + count_gt l x)%nat) l)
          = (List.length l * List.length l)%nat) as Hall.
  { rewrite (map_ext _ (fun _ => List.length l)) by apply count_trichotomy.
    apply list_sum_const. }
  rewrite !list_sum_map_add, <- count_lt_gt_swap in Hall.
  apply (f_equal INR) in Hall. rewrite mult_INR, !plus_INR in Hall.
  lra.
Qed.

(** X8. In the ranking of a year the undernourishment ranks of the [n]
    undernourishment rows add up to [n (n + 1) / 2], and the stunting ranks
    of the [m] stunting rows to [m (m + 1) / 2], whether or not rates tie. *)
Theorem ranking_rank_sums (year_und : list UndernourishmentRow)
  (year_nut : list NutritionRow) :
  let n := INR (List.length year_und) in
  let m := INR (List.length (stunting_rows year_nut)) in
  Rsum (map rk_Undernourishment_Rank (ranking_data year_und))
  = n * (n + 1) / 2 /\
  Rsum (map snd (stunting_ranks year_nut)) = m * (m + 1) / 2.
Proof.
  cbv zeta. unfold ranking_data, stunting_ranks. rewrite !map_map.
  cbn [rk_Undernourishment_Rank rank_row snd stunting_rank_row].
  split.
  - rewrite <- (map_map Undernourishment_Rate
                  (rank (map Undernourishment_Rate year_und))).
    rewrite rank_sum, length_map. reflexivity.
  - rewrite <- (map_map Rate (rank (map Rate (stunting_rows year_nut)))).
    rewrite rank_sum, length_map. reflexivity.
Qed.

(** ** Radar traces: missing regions and generated tables *)

Lemma iloc0_filter_found {A} (f : A -> R) (p : A -> bool) (l : list A) (r : A) :
  In r l -> p r = true -> exists x, iloc0 (map f (filter p l)) = Ok x.
Proof.
  intros Hin Hp.
  assert (In r (filter p l)) as Hf by (apply filter_In; auto).
  destruct (filter p l) as [|r' l']; [contradiction|].
  eexists. reflexivity.
Qed.

Lemma iloc0_filter_none {A} (f : A -> R) (p : A -> bool) (l : list A) :
  (forall r, In r l -> p r = false) ->
  iloc0 (map f (filter p l)) = Raise IndexError.
Proof.
  intros H. destruct (filter p l) as [|r l'] eqn:E; [reflexivity|].
  assert (In r (filter p l)) as Hf by (rewrite E; left; reflexivity).
  apply filter_In in Hf as [Hin Hp]. rewrite (H r Hin) in Hp. discriminate.
Qed.

(** X9. A radar trace for a region without undernourishment row, or without
    stunting row, in the tables of the year raises [IndexError], and does so
    before NumPy's generator is used: no draw is consumed. *)
Theorem radar_values_missing_region (year_und : list UndernourishmentRow)
  (year_nut : list NutritionRow) (region : string) (np : Rand.rng) :
  (forall r, In r year_und -> u_Region r <> region) \/
  (forall r, In r year_nut -> n_Region r = region ->
             n_Indicator r <> "Stunting") ->
  radar_values year_und year_nut region np = (Raise IndexError, np).
Proof.
  intros H. unfold radar_values.
  assert (undernourishment_val year_und region = Raise IndexError \/
          exists v, undernourishment_val year_und region = Ok v) as Hu.
  { unfold undernourishment_val. destruct (iloc0 _) as [x|e] eqn:E.
    - right. eexists. reflexivity.
    - left. destruct (filter _ year_und); [|discriminate].
      cbn [map iloc0] in E. injection E as <-. reflexivity. }
  destruct H as [H|H].
  - unfold undernourishment_val. rewrite iloc0_filter_none; [reflexivity|].
    intros r Hin. apply String.eqb_neq. apply H. exact Hin.
  - destruct Hu as [->|[v ->]]; [reflexivity|].
    unfold stunting_val. rewrite iloc0_filter_none; [reflexivity|].
    intros r Hin. apply andb_false_iff.
    destruct (String.eqb (n_Region r) region) eqn:Er; [|left; reflexivity].
    right. apply String.eqb_neq. apply H; [exact Hin|].
    apply String.eqb_eq. exact Er.
Qed.

Lemma radar_values_missing_region_witness :
  let year_und := [ {| u_Year := 2023; u_Region := "Asia";
                       Undernourishment_Rate := 12 |} ] in
  ((forall r, In r year_und -> u_Region r <> "Europe") \/
   (forall r, In r (@nil NutritionRow) -> n_Region r = "Europe" ->
              n_Indicator r <> "Stunting")) /\
  radar_values year_und [] "Europe" (fun _ => 1 / 2)
  = (Raise IndexError, fun _ => 1 / 2).
Proof.
  cbv zeta.
  assert ((forall r,
             In r [ {| u_Year := 2023; u_Region := "Asia";
                       Undernourishment_Rate := 12 |} ] ->
             u_Region r <> "Europe") \/
          (forall r, In r (@nil NutritionRow) -> n_Region r = "Europe" ->
                     n_Indicator r <> "Stunting")) as H
    by (right; intros r []).
  split; [exact H|].
  exact (radar_values_missing_region _ [] "Europe" (fun _ => 1 / 2) H).
Defined.

(** X10. On a generated table, for a year of the slider and a region of the
    region list, the radar trace raises nothing: it has four values, takes
    two draws of NumPy's generator, and every value lies between 0 and 100
    (the first is at least 22, the second at least 29, the third between 60
    and 95, the fourth between 70 and 90). *)
Theorem generated_radar_values (s np : Rand.rng) (selected_year : Z)
  (region : string) :
  Rand.valid s -> Rand.valid np ->
  In selected_year years -> In region regions ->
  let t := Rand.run generate_sdg2_data s in
  exists u_val s_val food_security_val production_val,
    radar_values
      (year_undernourishment (undernourishment_df t) selected_year)
      (year_nutrition (nutrition_df t) selected_year) region np
    = (Ok [u_val; s_val; food_security_val; production_val],
       fun n => np (S (S n))) /\
    22 <= u_val <= 100 /\ 29 <= s_val <= 100 /\
    60 <= food_security_val <= 95 /\ 70 <= production_val <= 90.
Proof.
  intros Hs Hnp Hyear Hregion. cbv zeta.
  destruct (generate_sdg2_data_range s Hs) as [(Hu & _ & _ & Hn) _].
  destruct (generated_keys s) as (Eu & _ & _ & En). cbv zeta in Eu, En.
  unfold Rand.run in *.
  set (t := fst (generate_sdg2_data s)) in *.
  assert (exists v, undernourishment_val
                      (year_undernourishment (undernourishment_df t)
                         selected_year) region = Ok v) as [v Ev].
  { assert (In (region, selected_year) (map u_key (undernourishment_df t)))
      as Hin by (rewrite Eu; apply in_prod; assumption).
    apply in_map_iff in Hin as (r & Ek & Hin). injection Ek as Er Ey.
    unfold undernourishment_val.
    destruct (iloc0_filter_found Undernourishment_Rate
                (fun r => String.eqb (u_Region r) region)
                (year_undernourishment (undernourishment_df t) selected_year) r)
      as [x ->].
    - apply filter_In. split; [exact Hin|]. apply Z.eqb_eq. exact Ey.
    - apply String.eqb_eq. exact Er.
    - eexists. reflexivity. }
  assert (exists w, stunting_val
                      (year_nutrition (nutrition_df t) selected_year) region
                    = Ok w) as [w Ew].
  { assert (In (region, "Stunting", selected_year) (map n_key (nutrition_df t)))
      as Hin.
    { rewrite En. apply in_prod; [|assumption].
      apply in_prod; [assumption|]. left. reflexivity. }
    apply in_map_iff in Hin as (r & Ek & Hin). injection Ek as Er Ei Ey.
    unfold stunting_val.
    destruct (iloc0_filter_found Rate
                (fun r => String.eqb (n_Region r) region
                          && String.eqb (n_Indicator r) "Stunting")
                (year_nutrition (nutrition_df t) selected_year) r)
      as [x ->].
    - apply filter_In. split; [exact Hin|]. apply Z.eqb_eq. exact Ey.
    - apply andb_true_iff. split; apply String.eqb_eq; assumption.
    - eexists. reflexivity. }
  unfold radar_values. rewrite Ev, Ew.
  exists v, w, (60 + (95 - 60) * np 0%nat), (70 + (90 - 70) * np 1%nat).
  split; [reflexivity|].
  apply undernourishment_val_linear in Ev as (r & Hin & _ & ->).
  apply stunting_val_linear in Ew as (r' & Hin' & _ & _ & ->).
  apply filter_In in Hin as [Hin _]. apply filter_In in Hin' as [Hin' _].
  rewrite Forall_forall in Hu, Hn.
  specialize (Hu r Hin). specialize (Hn r' Hin'). cbv beta in Hu, Hn.
  pose proof (Hnp 0%nat). pose proof (Hnp 1%nat). lra.
Qed.

Lemma generated_radar_values_witness :
  Rand.valid (fun _ => 1 / 2) /\
  In 2023%Z years /\ In "Asia" regions /\
  let t := Rand.run generate_sdg2_data (fun _ => 1 / 2) in
  exists u_val s_val food_security_val production_val,
    radar_values
      (year_undernourishment (undernourishment_df t) 2023)
      (year_nutrition (nutrition_df t) 2023) "Asia" (fun _ => 1 / 2)
    = (Ok [u_val; s_val; food_security_val; production_val],
       fun n => (fun _ => 1 / 2) (S (S n))) /\
    22 <= u_val <= 100 /\ 29 <= s_val <= 100 /\
    60 <= food_security_val <= 95 /\ 70 <= production_val <= 90.
Proof.
  assert (In 2023%Z years) as Hy by (unfold years; cbn [In]; tauto).
  assert (In "Asia" regions) as Hr by (unfold regions; cbn [In]; tauto).
  split; [exact valid_half|]. split; [exact Hy|]. split; [exact Hr|].
  exact (generated_radar_values (fun _ => 1 / 2) (fun _ => 1 / 2) 2023 "Asia"
           valid_half valid_half Hy Hr).
Defined.

(** ** Pivot: duplicates, cells and labels *)

Lemma in_insert_label_intro {K} (eqb ltb : K -> K -> bool)
  (eqb_eq : forall x y, eqb x y = true <-> x = y) (x y : K) (l : list K) :
  y = x \/ In y l -> In y (insert_label eqb ltb x l).
Proof.
  induction l as [|z l IH]; cbn [insert_label In].
  - intros [->|[]]. left. reflexivity.
  - destruct (eqb x z) eqn:E.
    + apply eqb_eq in E. subst z. cbn [In]. intros [->|H]; tauto.
    + destruct (ltb x z); cbn [In]; [intuition congruence|].
      intros [->|[->|H]]; [right; apply IH; left; reflexivity|tauto|].
      right. apply IH. right. exact H.
Qed.

(** Every label of the input is a label of the result. *)
Lemma in_sorted_labels_intro {K} (eqb ltb : K -> K -> bool)
  (eqb_eq : forall x y, eqb x y = true <-> x = y) (y : K) (l : list K) :
  In y l -> In y (sorted_labels eqb ltb l).
Proof.
  unfold sorted_labels. induction l as [|x l IH]; cbn [fold_right In]; [tauto|].
  intros [->|H]; apply in_insert_label_intro; auto.
Qed.

Section PivotCells.

Context {I C : Type}.
Variables (I_eqb I_ltb : I -> I -> bool) (C_eqb C_ltb : C -> C -> bool).
Hypothesis I_eqb_eq : forall x y, I_eqb x y = true <-> x = y.
Hypothesis C_eqb_eq : forall x y, C_eqb x y = true <-> x = y.

Lemma has_duplicates_true (keys : list (I * C)) :
  has_duplicates I_eqb C_eqb keys = true -> ~ NoDup keys.
Proof.
  induction keys as [|k keys IH]; cbn [has_duplicates]; [discriminate|].
  intros H Hnd. apply NoDup_cons_iff in Hnd as [Hk Hnd].
  apply orb_true_iff in H as [H|H]; [|exact (IH H Hnd)].
  apply existsb_exists in H as (k' & Hin & E).
  apply (key_eqb_eq _ _ I_eqb_eq C_eqb_eq) in E. subst k'. contradiction.
Qed.

Lemma has_duplicates_false (keys : list (I * C)) :
  has_duplicates I_eqb C_eqb keys = false -> NoDup keys.
Proof.
  induction keys as [|k keys IH]; cbn [has_duplicates]; [constructor|].
  intros E. apply orb_false_iff in E as [Ek E].
  constructor; [|exact (IH E)].
  intros Hin.
  assert (existsb (key_eqb I_eqb C_eqb k) keys = true) as Ex; [|congruence].
  apply existsb_exists. exists k. split; [exact Hin|].
  apply (key_eqb_eq _ _ I_eqb_eq C_eqb_eq). reflexivity.
Qed.

(** [pivot] raises [ValueError], and nothing else, exactly on entries with
    a repeated (index, column) pair. *)
Lemma pivot_raises (entries : list (I * C * R)) (e : exn) :
  pivot I_eqb I_ltb C_eqb C_ltb entries = Raise e <->
  e = ValueError /\ ~ NoDup (map fst entries).
Proof.
  unfold pivot.
  destruct (has_duplicates I_eqb C_eqb (map fst entries)) eqn:E.
  - apply has_duplicates_true in E. split.
    + intros H. injection H as <-. auto.
    + intros [-> _]. reflexivity.
  - apply has_duplicates_false in E. split; [discriminate|].
    intros [_ H]. contradiction.
Qed.

(** The cell of a pair is the value of its entry, and a cell that is not
    NaN is the value of an entry. *)
Lemma cell_Some (entries : list (I * C * R)) (k : I * C) (v : R) :
  NoDup (map fst entries) ->
  (cell I_eqb C_eqb entries k = Some v <-> In (k, v) entries).
Proof.
  induction entries as [|[k' v'] entries IH]; cbn [map cell fst In]; intros Hnd.
  - split; [discriminate|tauto].
  - apply NoDup_cons_iff in Hnd as [Hk Hnd].
    destruct (key_eqb I_eqb C_eqb k' k) eqn:E.
    + apply (key_eqb_eq _ _ I_eqb_eq C_eqb_eq) in E. subst k'. split.
      * intros H. injection H as ->. left. reflexivity.
      * intros [H|H]; [injection H as ->; reflexivity|].
        exfalso. apply Hk. apply (in_map fst) in H. exact H.
    + rewrite (IH Hnd). split; [tauto|]. intros [H|H]; [|exact H].
      injection H as -> ->.
      rewrite (proj2 (key_eqb_eq _ _ I_eqb_eq C_eqb_eq k k) eq_refl) in E.
      discriminate.
Qed.

(** The value of an entry sits in the matrix in the row of its index label
    and the column of its column label. *)
Lemma pivot_cell_of_entry (entries : list (I * C * R)) (m : Matrix I C)
  (i : I) (c : C) (v : R) :
  pivot I_eqb I_ltb C_eqb C_ltb entries = Ok m ->
  In (i, c, v) entries ->
  exists row_pos col_pos row,
    nth_error (index m) row_pos = Some i /\
    nth_error (columns m) col_pos = Some c /\
    nth_error (values m) row_pos = Some row /\
    nth_error row col_pos = Some (Some v).
Proof.
  unfold pivot.
  destruct (has_duplicates I_eqb C_eqb (map fst entries)) eqn:E; [discriminate|].
  intros H Hin. injection H as <-. cbn [index columns values].
  assert (NoDup (map fst entries)) as Hnd by (apply has_duplicates_false, E).
  assert (In i (sorted_labels I_eqb I_ltb (map (fun e => fst (fst e)) entries)))
    as Hi.
  { apply in_sorted_labels_intro; [exact I_eqb_eq|].
    apply (in_map (fun e => fst (fst e)) _ _ Hin). }
  assert (In c (sorted_labels C_eqb C_ltb (map (fun e => snd (fst e)) entries)))
    as Hc.
  { apply in_sorted_labels_intro; [exact C_eqb_eq|].
    apply (in_map (fun e => snd (fst e)) _ _ Hin). }
  apply In_nth_error in Hi as [row_pos Hi].
  apply In_nth_error in Hc as [col_pos Hc].
  exists row_pos, col_pos. eexists.
  split; [exact Hi|]. split; [exact Hc|]. split.
  - apply map_nth_error. exact Hi.
  - rewrite (map_nth_error _ _ _ Hc). f_equal.
    apply (cell_Some entries (i, c) v Hnd). exact Hin.
Qed.

(** A cell of the matrix that is not NaN holds the value of the entry of
    its row label and column label. *)
Lemma pivot_entry_of_cell (entries : list (I * C * R)) (m : Matrix I C)
  (row_pos col_pos : nat) (row : list (option R)) (i : I) (c : C) (v : R) :
  pivot I_eqb I_ltb C_eqb C_ltb entries = Ok m ->
  nth_error (index m) row_pos = Some i ->
  nth_error (columns m) col_pos = Some c ->
  nth_error (values m) row_pos = Some row ->
  nth_error row col_pos = Some (Some v) ->
  In (i, c, v) entries.
Proof.
  unfold pivot.
  destruct (has_duplicates I_eqb C_eqb (map fst entries)) eqn:E; [discriminate|].
  intros H. injection H as <-. cbn [index columns values].
  intros Hi Hc Hrow Hv.
  rewrite (map_nth_error _ _ _ Hi) in Hrow. injection Hrow as <-.
  rewrite (map_nth_error _ _ _ Hc) in Hv. injection Hv as Hv.
  apply (cell_Some entries (i, c) v); [apply has_duplicates_false, E|exact Hv].
Qed.

End PivotCells.

(** X11. The pivot of the hunger view raises [ValueError], and no other
    exception, exactly when two rows of the table share region and year;
    the pivot of the nutrition view exactly when two rows of 2023 share
    region and indicator. *)
Theorem pivot_duplicate_entries :
  (forall undernourishment_df e,
     pivot_data undernourishment_df = Raise e <->
     e = ValueError /\ ~ NoDup (map u_key undernourishment_df)) /\
  (forall nutrition_df e,
     nutrition_pivot nutrition_df = Raise e <->
     e = ValueError /\
     ~ NoDup (map (fun r => (n_Region r, n_Indicator r))
                (filter (fun r => Z.eqb (n_Year r) 2023) nutrition_df))).
Proof.
  split.
  - intros df e. unfold pivot_data.
    rewrite (pivot_raises _ _ _ _ String.eqb_eq Z.eqb_eq).
    rewrite (proj1 (pivot_data_entries df)). reflexivity.
  - intros df e. unfold nutrition_pivot.
    rewrite (pivot_raises _ _ _ _ String.eqb_eq String.eqb_eq).
    rewrite map_map. reflexivity.
Qed.

(** X12. The pivot of the hunger view loses and invents nothing.  When it
    returns a matrix, the rate of every row of the table sits in the matrix
    in the row of its region and the column of its year, and every cell
    that is not NaN holds the rate of a row of the table with the region of
    the cell's row and the year of its column. *)
Theorem pivot_data_cells (undernourishment_df : list UndernourishmentRow)
  (m : Matrix string Z) :
  pivot_data undernourishment_df = Ok m ->
  (forall r, In r undernourishment_df ->
     exists row_pos col_pos row,
       nth_error (index m) row_pos = Some (u_Region r) /\
       nth_error (columns m) col_pos = Some (u_Year r) /\
       nth_error (values m) row_pos = Some row /\
       nth_error row col_pos = Some (Some (Undernourishment_Rate r))) /\
  (forall row_pos col_pos row region year rate,
     nth_error (index m) row_pos = Some region ->
     nth_error (columns m) col_pos = Some year ->
     nth_error (values m) row_pos = Some row ->
     nth_error row col_pos = Some (Some rate) ->
     exists r, In r undernourishment_df /\ u_Region r = region /\
               u_Year r = year /\ Undernourishment_Rate r = rate).
Proof.
  intros E. unfold pivot_data in E. split.
  - intros r Hin.
    apply (pivot_cell_of_entry _ _ _ _ String.eqb_eq Z.eqb_eq _ m _ _ _ E).
    apply (in_map (fun r => (u_Region r, u_Year r, Undernourishment_Rate r))
             _ _ Hin).
  - intros row_pos col_pos row region year rate Hi Hc Hrow Hv.
    pose proof (pivot_entry_of_cell _ _ _ _ String.eqb_eq Z.eqb_eq _ m
                  _ _ _ _ _ _ E Hi Hc Hrow Hv) as Hin.
    apply in_map_iff in Hin as (r & Er & Hin). injection Er as <- <- <-.
    exists r. auto.
Qed.

Lemma pivot_data_cells_witness :
  let asia := {| u_Year := 2023; u_Region := "Asia";
                 Undernourishment_Rate := 11 |} in
  let europe := {| u_Year := 2023; u_Region := "Europe";
                   Undernourishment_Rate := 2 |} in
  exists m,
    pivot_data [europe; asia] = Ok m /\
    exists row_pos col_pos row,
      nth_error (index m) row_pos = Some "Europe" /\
      nth_error (columns m) col_pos = Some 2023%Z /\
      nth_error (values m) row_pos = Some row /\
      nth_error row col_pos = Some (Some 2).
Proof.
  cbv zeta.
  assert (NoDup
            (map u_key
               [ {| u_Year := 2023; u_Region := "Europe";
                    Undernourishment_Rate := 2 |};
                 {| u_Year := 2023; u_Region := "Asia";
                    Undernourishment_Rate := 11 |} ])) as Hnd.
  { cbn [map u_key u_Region u_Year]. constructor.
    - cbn [In]. intros [E|[]]. discriminate E.
    - constructor; [intros []|constructor]. }
  destruct (pivot_data_unique _ Hnd) as [m E]. exists m. split; [exact E|].
  exact (proj1 (pivot_data_cells _ m E)
           {| u_Year := 2023; u_Region := "Europe";
              Undernourishment_Rate := 2 |} (or_introl eq_refl)).
Defined.

(** The keys of the rows of 2023 in a generated nutrition table. *)
Lemma generated_latest_nutrition_keys (s : Rand.rng) :
  map (fun r => (n_Region r, n_Indicator r))
    (filter (fun r => Z.eqb (n_Year r) 2023)
       (nutrition_df (Rand.run generate_sdg2_data s)))
  = list_prod regions indicators.
Proof. reflexivity. Qed.

Lemma pivot_data_labels (undernourishment_df : list UndernourishmentRow)
  (m : Matrix string Z) :
  map u_key undernourishment_df = list_prod regions years ->
  pivot_data undernourishment_df = Ok m ->
  index m = ["Asia"; "Europe"; "Latin America"; "North America"; "Oceania";
             "Sub-Saharan Africa"] /\
  columns m = years.
Proof.
  intros Ek E.
  destruct (pivot_data_entries undernourishment_df) as (E1 & E2 & E3).
  cbv zeta in E1, E2, E3. unfold pivot_data, pivot in E.
  destruct (has_duplicates _ _ _); [discriminate|].
  injection E as <-. cbn [index columns]. rewrite E2, E3, Ek.
  split; vm_compute; reflexivity.
Qed.

Lemma nutrition_pivot_cross_product (nutrition_df : list NutritionRow)
  (m : Matrix string string) :
  map (fun r => (n_Region r, n_Indicator r))
    (filter (fun r => Z.eqb (n_Year r) 2023) nutrition_df)
  = list_prod regions indicators ->
  nutrition_pivot nutrition_df = Ok m ->
  index m = ["Asia"; "Europe"; "Latin America"; "North America"; "Oceania";
             "Sub-Saharan Africa"] /\
  columns m = ["Overweight"; "Stunting"; "Wasting"] /\
  complete_matrix 6 3 m.
Proof.
  intros En E. unfold nutrition_pivot in E. cbv zeta in E.
  set (entries := map (fun r => (n_Region r, n_Indicator r, Rate r))
                    (filter (fun r => Z.eqb (n_Year r) 2023) nutrition_df))
    in *.
  assert (map fst entries = list_prod regions indicators) as F1
    by (unfold entries; rewrite map_map; exact En).
  assert (map (fun e => fst (fst e)) entries
          = map fst (list_prod regions indicators)) as F2
    by (rewrite <- F1, map_map; reflexivity).
  assert (map (fun e => snd (fst e)) entries
          = map snd (list_prod regions indicators)) as F3
    by (rewrite <- F1, map_map; reflexivity).
  assert (index m = ["Asia"; "Europe"; "Latin America"; "North America";
                     "Oceania"; "Sub-Saharan Africa"] /\
          columns m = ["Overweight"; "Stunting"; "Wasting"]) as [Hi Hc].
  { unfold pivot in E. destruct (has_duplicates _ _ _); [discriminate|].
    injection E as <-. cbn [index columns]. rewrite F2, F3.
    split; vm_compute; reflexivity. }
  split; [exact Hi|]. split; [exact Hc|].
  pose proof (pivot_complete _ _ _ _ String.eqb_eq String.eqb_eq entries m E)
    as Hm.
  rewrite Hi, Hc in Hm. apply Hm.
  intros i c Hin Hin'. rewrite F1. rewrite F2 in Hin. rewrite F3 in Hin'.
  apply in_map_iff in Hin as ([i' x] & <- & Hin).
  apply in_map_iff in Hin' as ([y c'] & <- & Hin').
  apply in_prod_iff in Hin as [Hin _]. apply in_prod_iff in Hin' as [_ Hin'].
  apply in_prod_iff. auto.
Qed.

(** X13. On a generated table the two heat maps have their axes in sorted
    order: the hunger view has the six regions in alphabetical order as rows
    and the years 2015 to 2023 as columns; the nutrition view has the same
    rows and the columns "Overweight", "Stunting", "Wasting", and its matrix
    of 6 rows and 3 columns has no missing cell. *)
Theorem generated_pivot_labels (s : Rand.rng) :
  let t := Rand.run generate_sdg2_data s in
  let sorted_regions :=
    ["Asia"; "Europe"; "Latin America"; "North America"; "Oceania";
     "Sub-Saharan Africa"] in
  exists m m',
    pivot_data (undernourishment_df t) = Ok m /\
    index m = sorted_regions /\ columns m = years /\
    nutrition_pivot (nutrition_df t) = Ok m' /\
    index m' = sorted_regions /\
    columns m' = ["Overweight"; "Stunting"; "Wasting"] /\
    complete_matrix 6 3 m'.
Proof.
  cbv zeta.
  destruct (generated_keys s) as (Ek & _). cbv zeta in Ek.
  pose proof (generated_latest_nutrition_keys s) as En.
  assert (exists m,
            pivot_data (undernourishment_df (Rand.run generate_sdg2_data s))
            = Ok m) as [m E].
  { apply pivot_data_unique. rewrite Ek.
    apply NoDup_list_prod;
      [apply distinct_NoDup; vm_compute; reflexivity|exact NoDup_years]. }
  assert (exists m',
            nutrition_pivot (nutrition_df (Rand.run generate_sdg2_data s))
            = Ok m') as [m' E'].
  { unfold nutrition_pivot.
    apply (pivot_unique _ _ _ _ String.eqb_eq String.eqb_eq).
    rewrite map_map. cbn [fst]. rewrite En.
    apply NoDup_list_prod; apply distinct_NoDup; vm_compute; reflexivity. }
  exists m, m'.
  destruct (pivot_data_labels _ m Ek E) as [Hi Hc].
  destruct (nutrition_pivot_cross_product _ m' En E') as (Hi' & Hc' & Hm).
  auto 10.
Qed.

(** ** Random draws of a run *)

Lemma generate_sdg2_data_first_draws (s : Rand.rng) :
  Rand.run generate_sdg2_data s
  = Rand.run generate_sdg2_data (stream_of (first_draws 546 s)) /\
  snd (generate_sdg2_data s) = fun n => s (546 + n)%nat.
Proof.
  split; reflexivity.
Qed.

(** X14. A run of the generator takes exactly 546 draws (54, 60, 270 and 162
    for the four tables): the stream it leaves starts at draw 546, and two
    random sources that agree on their first 546 draws give the same four
    tables. *)
Theorem generate_sdg2_data_draws (s s' : Rand.rng) :
  (forall n, (n < 546)%nat -> s n = s' n) ->
  Rand.run generate_sdg2_data s = Rand.run generate_sdg2_data s' /\
  forall n, snd (generate_sdg2_data s) n = s (546 + n)%nat.
Proof.
  intros H. split.
  - rewrite (proj1 (generate_sdg2_data_first_draws s)).
    rewrite (proj1 (generate_sdg2_data_first_draws s')).
    f_equal. f_equal. unfold first_draws. apply map_ext_in.
    intros n Hn. apply in_seq in Hn. apply H. lia.
  - intros n. rewrite (proj2 (generate_sdg2_data_first_draws s)). reflexivity.
Qed.

Lemma generate_sdg2_data_draws_witness :
  (forall n, (n < 546)%nat ->
             (fun _ : nat => 1 / 2) n
             = (fun k : nat => if (k <? 546)%nat then 1 / 2 else 0) n) /\
  Rand.run generate_sdg2_data (fun _ => 1 / 2)
  = Rand.run generate_sdg2_data
      (fun k => if (k <? 546)%nat then 1 / 2 else 0).
Proof.
  assert (forall n, (n < 546)%nat ->
                    (fun _ : nat => 1 / 2) n
                    = (fun k : nat => if (k <? 546)%nat then 1 / 2 else 0) n)
    as H.
  { intros n Hn. cbv beta. apply Nat.ltb_lt in Hn. rewrite Hn. reflexivity. }
  split; [exact H|].
  exact (proj1 (generate_sdg2_data_draws _ _ H)).
Defined.

(** ** Sorted labels and grouped aggregates *)

Section SortedLabels.

Context {K : Type}.
Variables (eqb ltb : K -> K -> bool) (lt : K -> K -> Prop).
Hypothesis eqb_eq : forall x y, eqb x y = true <-> x = y.
Hypothesis ltb_lt : forall x y, ltb x y = true <-> lt x y.
Hypothesis lt_trans : forall x y z, lt x y -> lt y z -> lt x z.
Hypothesis lt_irrefl : forall x, ~ lt x x.
Hypothesis lt_total : forall x y, x = y \/ lt x y \/ lt y x.

Lemma insert_label_ascending (x : K) (l : list K) :
  ascending lt l -> ascending lt (insert_label eqb ltb x l).
Proof.
  unfold ascending. induction l as [|z l IH]; intros Hl; cbn [insert_label].
  - constructor; constructor.
  - destruct (eqb x z) eqn:E; [exact Hl|].
    pose proof (StronglySorted_inv Hl) as [Hl' Hz].
    destruct (ltb x z) eqn:L.
    + apply ltb_lt in L. constructor; [exact Hl|].
      constructor; [exact L|].
      eapply Forall_impl; [|exact Hz]. intros w Hw. exact (lt_trans _ _ _ L Hw).
    + constructor; [apply IH; exact Hl'|].
      apply Forall_forall. intros w Hw.
      apply in_insert_label in Hw as [->|Hw].
      * destruct (lt_total x z) as [Exz|[Hxz|Hzx]]; [|exfalso|exact Hzx].
        -- apply eqb_eq in Exz. congruence.
        -- apply ltb_lt in Hxz. congruence.
      * rewrite Forall_forall in Hz. apply Hz. exact Hw.
Qed.

Lemma sorted_labels_ascending (l : list K) :
  ascending lt (sorted_labels eqb ltb l).
Proof.
  unfold sorted_labels. induction l as [|x l IH]; cbn [fold_right].
  - constructor.
  - apply insert_label_ascending. exact IH.
Qed.

Lemma ascending_NoDup (l : list K) : ascending lt l -> NoDup l.
Proof.
  unfold ascending. induction 1 as [|x l Hl IH Hx]; constructor; [|exact IH].
  intros Hin. rewrite Forall_forall in Hx. exact (lt_irrefl x (Hx x Hin)).
Qed.

(** The labels of a column: sorted, each once, and the values of the
    column. *)
Lemma sorted_labels_spec (l : list K) :
  ascending lt (sorted_labels eqb ltb l) /\
  NoDup (sorted_labels eqb ltb l) /\
  forall x, In x (sorted_labels eqb ltb l) <-> In x l.
Proof.
  split; [apply sorted_labels_ascending|].
  split; [apply ascending_NoDup, sorted_labels_ascending|].
  intros x. split.
  - apply in_sorted_labels.
  - apply in_sorted_labels_intro. exact eqb_eq.
Qed.

(** In a list of distinct keys, a row is counted under its key alone. *)
Lemma Rsum_one_key (keys : list K) (k : K) (v : R) :
  NoDup keys -> In k keys ->
  Rsum (map (fun k' => if eqb k k' then v else 0) keys) = v.
Proof.
  induction 1 as [|k' keys Hk' Hnd IH]; intros Hin; [contradiction|].
  cbn [map Rsum]. destruct Hin as [->|Hin].
  - rewrite (proj2 (eqb_eq k k) eq_refl).
    assert (Rsum (map (fun k' => if eqb k k' then v else 0) keys) = 0) as E;
      [|lra].
    clear IH Hnd. induction keys as [|k'' keys IH]; [reflexivity|].
    cbn [map Rsum].
    destruct (eqb k k'') eqn:E.
    + apply eqb_eq in E. subst k''. exfalso. apply Hk'. left. reflexivity.
    + rewrite IH; [lra|]. intros H. apply Hk'. right. exact H.
  - destruct (eqb k k') eqn:E.
    + apply eqb_eq in E. subst k'. contradiction.
    + rewrite (IH Hin). lra.
Qed.

Lemma Rsum_groups {Row} (key : Row -> K) (value : Row -> R) (keys : list K)
  (df : list Row) :
  NoDup keys -> (forall r, In r df -> In (key r) keys) ->
  Rsum (map (fun k => Rsum (map value (filter (fun r => eqb (key r) k) df)))
          keys)
  = Rsum (map value df).
Proof.
  intros Hnd. induction df as [|r df IH]; intros Hcover.
  - cbn [filter map Rsum]. clear Hnd Hcover.
    induction keys as [|k keys IHk]; [reflexivity|].
    cbn [map Rsum]. rewrite IHk. lra.
  - cbn [map Rsum].
    rewrite <- IH by (intros r' Hr'; apply Hcover; right; exact Hr').
    rewrite <- (Rsum_one_key keys (key r) (value r) Hnd
                  (Hcover r (or_introl eq_refl))) at 1.
    clear IH Hnd Hcover. induction keys as [|k keys IHk]; cbn [map Rsum]; [lra|].
    rewrite IHk. cbn [filter]. destruct (eqb (key r) k); cbn [map Rsum]; lra.
Qed.

(** The sums of the groups add up to the sum of the column. *)
Lemma groupby_sum_total {Row} (key : Row -> K) (value : Row -> R)
  (df : list Row) :
  Rsum (map snd (groupby eqb ltb key value Rsum df)) = Rsum (map value df).
Proof.
  unfold groupby. rewrite map_map. cbn [snd].
  destruct (sorted_labels_spec (map key df)) as (_ & Hnd & Hin).
  apply Rsum_groups; [exact Hnd|].
  intros r Hr. apply Hin, in_map, Hr.
Qed.

End SortedLabels.

Lemma Z_ltb_order :
  (forall x y, Z.ltb x y = true <-> (x < y)%Z) /\
  (forall x y z, (x < y)%Z -> (y < z)%Z -> (x < z)%Z) /\
  (forall x, ~ (x < x)%Z) /\
  (forall x y, x = y \/ (x < y)%Z \/ (y < x)%Z).
Proof.
  split; [exact Z.ltb_lt|]. split; [intros; lia|]. split; intros; lia.
Qed.

Lemma groupby_keys {Row K A} (eqb ltb : K -> K -> bool) (key : Row -> K)
  (value : Row -> R) (agg : list R -> A) (df : list Row) :
  map fst (groupby eqb ltb key value agg df)
  = sorted_labels eqb ltb (map key df).
Proof.
  unfold groupby. rewrite map_map. cbn [fst]. apply map_id.
Qed.

(** X15. The yearly totals of the affected population have one row for
    every year of the table, in strictly ascending order of the year, and
    add up to the total of the column: no row is counted twice or left
    out. *)
Theorem total_affected_partition (security_df : list FoodSecurityRow) :
  ascending Z.lt (map fst (total_affected security_df)) /\
  (forall y, In y (map fst (total_affected security_df)) <->
             In y (map s_Year security_df)) /\
  Rsum (map snd (total_affected security_df))
  = Rsum (map Population_Affected security_df).
Proof.
  destruct Z_ltb_order as (Hltb & Htrans & Hirrefl & Htotal).
  unfold total_affected. rewrite groupby_keys.
  destruct (sorted_labels_spec Z.eqb Z.ltb Z.lt Z.eqb_eq Hltb Htrans Hirrefl
              Htotal (map s_Year security_df)) as (Hasc & _ & Hin).
  split; [exact Hasc|]. split; [exact Hin|].
  apply (groupby_sum_total Z.eqb Z.ltb Z.lt Z.eqb_eq Hltb Htrans Hirrefl Htotal).
Qed.

Lemma Rsum_bounds (a b : R) (l : list R) :
  Forall (fun x => a <= x <= b) l ->
  a * INR (List.length l) <= Rsum l <= b * INR (List.length l).
Proof.
  induction 1 as [|x l Hx Hl IH].
  - cbn [Rsum List.length INR]. lra.
  - cbn [Rsum List.length]. rewrite S_INR. lra.
Qed.

(** The mean of a non-empty list lies between the bounds of its values. *)
Lemma mean_bounds (a b : R) (l : list R) :
  Forall (fun x => a <= x <= b) l -> l <> [] ->
  exists m, mean l = Some m /\ a <= m <= b.
Proof.
  intros H Hne. pose proof (Rsum_bounds a b l H) as Hsum.
  destruct l as [|x l]; [contradiction|].
  unfold mean. eexists. split; [reflexivity|].
  assert (0 < INR (List.length (x :: l))) as Hn
    by (apply lt_0_INR; cbn [List.length]; lia).
  set (n := INR (List.length (x :: l))) in *.
  split.
  - apply Rmult_le_reg_r with n; [exact Hn|].
    replace (Rsum (x :: l) / n * n) with (Rsum (x :: l)) by (field; lra). lra.
  - apply Rmult_le_reg_r with n; [exact Hn|].
    replace (Rsum (x :: l) / n * n) with (Rsum (x :: l)) by (field; lra). lra.
Qed.

Lemma Forall_map_filter {A} (f : A -> R) (p : A -> bool) (P : R -> Prop)
  (l : list A) :
  Forall (fun r => P (f r)) l -> Forall P (map f (filter p l)).
Proof.
  intros H. apply Forall_forall. intros x Hx.
  apply in_map_iff in Hx as (r & <- & Hr). apply filter_In in Hr as [Hr _].
  rewrite Forall_forall in H. apply H. exact Hr.
Qed.

(** The rows of one year in the generated tables. *)
Lemma generated_year_counts (s : Rand.rng) (year : Z) :
  In year years ->
  let t := Rand.run generate_sdg2_data s in
  List.length (filter (fun r => Z.eqb (u_Year r) year) (undernourishment_df t))
  = 6%nat /\
  List.length (filter (fun r => Z.eqb (s_Year r) year) (security_df t))
  = 10%nat.
Proof.
  unfold years. cbn [In]. cbv zeta.
  intros [<-|[<-|[<-|[<-|[<-|[<-|[<-|[<-|[<-|[]]]]]]]]]]; split; reflexivity.
Qed.

Lemma generated_year_labels (s : Rand.rng) :
  let t := Rand.run generate_sdg2_data s in
  sorted_labels Z.eqb Z.ltb (map u_Year (undernourishment_df t)) = years /\
  sorted_labels Z.eqb Z.ltb (map s_Year (security_df t)) = years.
Proof.
  destruct (generated_keys s) as (Eu & _ & Es & _). cbv zeta in *.
  replace (map u_Year (undernourishment_df (Rand.run generate_sdg2_data s)))
    with (map snd (map u_key
                     (undernourishment_df (Rand.run generate_sdg2_data s))))
    by (rewrite map_map; reflexivity).
  replace (map s_Year (security_df (Rand.run generate_sdg2_data s)))
    with (map snd (map s_key (security_df (Rand.run generate_sdg2_data s))))
    by (rewrite map_map; reflexivity).
  rewrite Eu, Es. split; vm_compute; reflexivity.
Qed.

(** X16. On every run whose draws lie in [0, 1), the two yearly series have
    one row for each of the years 2015 to 2023, in that order: the mean
    undernourishment rate of a year is a number between 0 and 26, and the
    affected population of a year lies between 50 and 400. *)
Theorem generated_yearly_series (s : Rand.rng) :
  Rand.valid s ->
  let t := Rand.run generate_sdg2_data s in
  map fst (global_trend (undernourishment_df t)) = years /\
  Forall (fun row => exists m, snd row = Some m /\ 0 <= m <= 26)
    (global_trend (undernourishment_df t)) /\
  map fst (total_affected (security_df t)) = years /\
  Forall (fun row => 50 <= snd row <= 400) (total_affected (security_df t)).
Proof.
  intros Hs. cbv zeta.
  destruct (generate_sdg2_data_range s Hs) as [(Hu & _ & Hf & _) _].
  destruct (generated_year_labels s) as [Lu Ls]. cbv zeta in Lu, Ls.
  unfold Rand.run in *.
  unfold global_trend, total_affected. rewrite !groupby_keys, Lu, Ls.
  split; [reflexivity|]. split; [|split; [reflexivity|]].
  - unfold groupby. rewrite Lu. apply Forall_forall. intros row Hrow.
    apply in_map_iff in Hrow as (y & <- & Hy). cbn [snd].
    destruct (generated_year_counts s y Hy) as [Hlen _]. cbv zeta in Hlen.
    unfold Rand.run in Hlen.
    apply mean_bounds.
    + apply Forall_map_filter. exact Hu.
    + intros E. apply (f_equal (@List.length R)) in E.
      rewrite length_map, Hlen in E. discriminate.
  - unfold groupby. rewrite Ls. apply Forall_forall. intros row Hrow.
    apply in_map_iff in Hrow as (y & <- & Hy). cbn [snd].
    destruct (generated_year_counts s y Hy) as [_ Hlen]. cbv zeta in Hlen.
    unfold Rand.run in Hlen.
    pose proof (Rsum_bounds 5 40
                  (map Population_Affected
                     (filter (fun r => Z.eqb (s_Year r) y)
                        (security_df (fst (generate_sdg2_data s)))))) as Hb.
    rewrite length_map, Hlen in Hb. cbn [INR] in Hb.
    assert (Forall (fun x => 5 <= x <= 40)
              (map Population_Affected
                 (filter (fun r => Z.eqb (s_Year r) y)
                    (security_df (fst (generate_sdg2_data s)))))) as Hall.
    { apply Forall_map_filter. eapply Forall_impl; [|exact Hf].
      cbv beta. intros r Hr. lra. }
    specialize (Hb Hall). lra.
Qed.

Lemma generated_yearly_series_witness :
  Rand.valid (fun _ => 1 / 2) /\
  let t := Rand.run generate_sdg2_data (fun _ => 1 / 2) in
  map fst (global_trend (undernourishment_df t)) = years /\
  Forall (fun row => exists m, snd row = Some m /\ 0 <= m <= 26)
    (global_trend (undernourishment_df t)) /\
  map fst (total_affected (security_df t)) = years /\
  Forall (fun row => 50 <= snd row <= 400) (total_affected (security_df t)).
Proof.
  split; [exact valid_half|].
  exact (generated_yearly_series (fun _ => 1 / 2) valid_half).
Defined.

(** ** The metrics of the overview *)

Ltac eval_powerRZ :=
  repeat match goal with
         | |- context [powerRZ ?x ?z] =>
             let z' := eval compute in z in
             lazymatch z' with
             | Z0 => change (powerRZ x z) with 1
             | Zpos ?p =>
                 let n := eval compute in (Pos.to_nat p) in
                 change (powerRZ x z) with (pow x n)
             end
         end;
  cbn [pow].

Lemma growth_factor_range (year : Z) :
  In year years -> 1 <= powerRZ 1.02 (year - 2015) <= 1.18.
Proof.
  unfold years. cbn [In].
  intros [<-|[<-|[<-|[<-|[<-|[<-|[<-|[<-|[<-|[]]]]]]]]]];
    eval_powerRZ; lra.
Qed.

Lemma food_production_data_bounds :
  ensures food_production_data (Forall (fun r => 95 <= Production r <= 620)).
Proof.
  unfold food_production_data.
  apply ensures_for_each. intros crop _.
  apply ensures_bind with (P := fun b => 100 <= b <= 500).
  { apply ensures_uniform. lra. }
  intros base_production Hbase.
  apply ensures_for_each. intros year Hyear.
  unfold production_row.
  apply ensures_row with (P := fun x => 0.95 <= x <= 1.05).
  - apply ensures_uniform. lra.
  - intros noise Hnoise. cbn [Production].
    pose proof (growth_factor_range year Hyear) as Hg.
    set (g := powerRZ 1.02 (year - 2015)) in *.
    assert (100 <= base_production * g <= 590) by nra.
    nra.
Qed.

Lemma generate_sdg2_data_production_bounds :
  ensures generate_sdg2_data
    (fun t => Forall (fun r => 95 <= Production r <= 620) (production_df t)).
Proof.
  unfold generate_sdg2_data.
  eapply ensures_bind; [apply undernourishment_data_range|]. intros u _.
  eapply ensures_bind; [apply food_production_data_bounds|]. intros p Hp.
  eapply ensures_bind; [apply food_security_data_range|]. intros f _.
  eapply ensures_bind; [apply nutrition_data_range|]. intros n _.
  apply ensures_ret. exact Hp.
Qed.

(** The rows of 2023 that the overview reads, in the generated tables. *)
Lemma generated_latest_counts (s : Rand.rng) :
  let t := Rand.run generate_sdg2_data s in
  List.length (filter (fun r => Z.eqb (p_Year r) 2023) (production_df t))
  = 6%nat /\
  List.length
    (filter (fun r => Z.eqb (n_Year r) 2023
                      && String.eqb (n_Indicator r) "Stunting")
       (nutrition_df t)) = 6%nat.
Proof. split; reflexivity. Qed.

Lemma length_filter_and {A} (p q : A -> bool) (l : list A) :
  (List.length (filter (fun x => p x && q x) l)
   <= List.length (filter p l))%nat.
Proof.
  induction l as [|x l IH]; cbn [filter List.length]; [lia|].
  destruct (p x), (q x); cbn [andb List.length]; lia.
Qed.

(** X17. On every run whose draws lie in [0, 1), the four metrics of the
    overview are numbers, not NaN: the undernourishment rate of 2023 lies
    between 0 and 26, the total production of 2023 between 570 and 3720, the
    number of countries in crisis is at most 10, and the stunting rate of
    2023 lies between 0 and 35.5. *)
Theorem generated_overview_metrics (s : Rand.rng) :
  Rand.valid s ->
  let t := Rand.run generate_sdg2_data s in
  (exists m, latest_undernourishment (undernourishment_df t) = Some m /\
             0 <= m <= 26) /\
  570 <= total_production (production_df t) <= 3720 /\
  (crisis_countries (security_df t) <= 10)%nat /\
  (exists a, avg_stunting (nutrition_df t) = Some a /\ 0 <= a <= 35.5).
Proof.
  intros Hs. cbv zeta.
  destruct (generate_sdg2_data_range s Hs) as [(Hu & _ & _ & Hn) _].
  destruct (generate_sdg2_data_production_bounds s Hs) as [Hp _].
  assert (In 2023%Z years) as Hy by (unfold years; cbn [In]; tauto).
  destruct (generated_year_counts s 2023 Hy) as [Lu Lf].
  destruct (generated_latest_counts s) as [Lp Ln].
  cbv zeta in Lu, Lf, Lp, Ln. unfold Rand.run in *.
  split; [|split; [|split]].
  - unfold latest_undernourishment. apply mean_bounds.
    + apply Forall_map_filter. exact Hu.
    + intros E. apply (f_equal (@List.length R)) in E.
      rewrite length_map, Lu in E. discriminate.
  - unfold total_production.
    pose proof (Rsum_bounds 95 620
                  (map Production
                     (filter (fun r => Z.eqb (p_Year r) 2023)
                        (production_df (fst (generate_sdg2_data s)))))
                  (Forall_map_filter _ _ _ _ Hp)) as Hb.
    rewrite length_map, Lp in Hb. cbn [INR] in Hb. lra.
  - unfold crisis_countries. rewrite <- Lf. apply length_filter_and.
  - unfold avg_stunting. apply mean_bounds.
    + apply Forall_map_filter. exact Hn.
    + intros E. apply (f_equal (@List.length R)) in E.
      rewrite length_map, Ln in E. discriminate.
Qed.

Lemma generated_overview_metrics_witness :
  Rand.valid (fun _ => 1 / 2) /\
  let t := Rand.run generate_sdg2_data (fun _ => 1 / 2) in
  (exists m, latest_undernourishment (undernourishment_df t) = Some m /\
             0 <= m <= 26) /\
  570 <= total_production (production_df t) <= 3720 /\
  (crisis_countries (security_df t) <= 10)%nat /\
  (exists a, avg_stunting (nutrition_df t) = Some a /\ 0 <= a <= 35.5).
Proof.
  split; [exact valid_half|].
  exact (generated_overview_metrics (fun _ => 1 / 2) valid_half).
Defined.

(** ** The merge of the regional comparison *)

Lemma generated_comparison_regions (s : Rand.rng) (selected_year : Z) :
  In selected_year years ->
  let t := Rand.run generate_sdg2_data s in
  map (fun p => (u_Region (fst p), fst (snd p)))
    (comparison_data (undernourishment_df t) (nutrition_df t) selected_year)
  = map (fun region => (region, region)) regions.
Proof.
  unfold years. cbn [In]. cbv zeta.
  intros [<-|[<-|[<-|[<-|[<-|[<-|[<-|[<-|[<-|[]]]]]]]]]]; reflexivity.
Qed.

(** X18. The scatter plot of the regional comparison has a point for an
    undernourishment row of the year and a stunting rate exactly when a
    stunting row of the year and of the same region has that rate: a region
    without stunting row, or without undernourishment row, is left out.  On
    a generated table and a year of the slider it has six points, one for
    each region, in the order of the region list. *)
Theorem comparison_data_inner_join (und_rows : list UndernourishmentRow)
  (nut_rows : list NutritionRow) (selected_year : Z) :
  (forall u region rate,
     In (u, (region, rate)) (comparison_data und_rows nut_rows selected_year)
     <->
     In u und_rows /\ u_Year u = selected_year /\ u_Region u = region /\
     exists n, In n nut_rows /\ n_Year n = selected_year /\
               n_Indicator n = "Stunting" /\ n_Region n = region /\
               Rate n = rate) /\
  (forall s,
     In selected_year years ->
     let t := Rand.run generate_sdg2_data s in
     map (fun p => u_Region (fst p))
       (comparison_data (undernourishment_df t) (nutrition_df t) selected_year)
     = regions).
Proof.
  split.
  - intros u region rate. unfold comparison_data. cbv zeta.
    rewrite in_merge_on_region. cbn [fst].
    unfold year_undernourishment, stunting_rows, year_nutrition.
    rewrite filter_In, in_map_iff, Z.eqb_eq. split.
    + intros ((Hu & Hy) & (n & En & Hn) & Hr). injection En as <- <-.
      apply filter_In in Hn as [Hn Hi]. apply filter_In in Hn as [Hn Hny].
      apply String.eqb_eq in Hi. apply Z.eqb_eq in Hny.
      repeat split; auto. exists n. auto.
    + intros (Hu & Hy & Hr & n & Hn & Hny & Hi & Hnr & Hrate).
      split; [auto|]. split; [|congruence].
      exists n. split; [congruence|].
      apply filter_In. split; [|apply String.eqb_eq; exact Hi].
      apply filter_In. split; [exact Hn|apply Z.eqb_eq; exact Hny].
  - intros s Hyear. cbv zeta.
    pose proof (generated_comparison_regions s selected_year Hyear) as E.
    cbv zeta in E. apply (f_equal (map fst)) in E.
    rewrite !map_map in E. cbn [fst] in E. rewrite E. apply map_id.
Qed.

Lemma comparison_data_inner_join_witness :
  In 2023%Z years /\
  let t := Rand.run generate_sdg2_data (fun _ => 1 / 2) in
  map (fun p => u_Region (fst p))
    (comparison_data (undernourishment_df t) (nutrition_df t) 2023)
  = regions.
Proof.
  assert (In 2023%Z years) as H by (unfold years; cbn [In]; tauto).
  split; [exact H|].
  exact (proj2 (comparison_data_inner_join [] [] 2023) (fun _ => 1 / 2) H).
Defined.

(** ** One row for every distinct indicator *)

(** X19. Progress tracking raises nothing, whatever the table: it has
    exactly one row for every distinct indicator of the table, in order of
    first appearance, and the target of every row is "Decrease". *)
Theorem progress_data_rows (nutrition_df : list NutritionRow) :
  map pr_Indicator (progress_data nutrition_df)
  = unique (map n_Indicator nutrition_df) /\
  NoDup (map pr_Indicator (progress_data nutrition_df)) /\
  (forall indicator,
     In indicator (map pr_Indicator (progress_data nutrition_df)) <->
     exists r, In r nutrition_df /\ n_Indicator r = indicator) /\
  Forall (fun row => Target row = "Decrease" /\
                     (Direction row = "Improving" \/
                      Direction row = "Worsening"))
    (progress_data nutrition_df).
Proof.
  assert (map pr_Indicator (progress_data nutrition_df)
          = unique (map n_Indicator nutrition_df)) as E.
  { unfold progress_data. rewrite map_map.
    rewrite (map_ext _ (fun i => i)); [apply map_id|].
    intros i. unfold progress_row. cbv zeta.
    destruct (String.eqb i "Overweight"); reflexivity. }
  split; [exact E|]. rewrite E. split; [apply NoDup_unique|]. split.
  - intros indicator. rewrite in_unique, in_map_iff.
    split; intros (r & H1 & H2); exists r; auto.
  - apply Forall_forall. intros row Hrow. unfold progress_data in Hrow.
    apply in_map_iff in Hrow as (i & <- & _). split.
    + unfold progress_row. cbv zeta.
      destruct (String.eqb i "Overweight"); reflexivity.
    + rewrite progress_row_direction.
      destruct (float_gt0 _); [left|right]; reflexivity.
Qed.

(** ** The distribution of the food-security levels *)

Lemma Rltb_order :
  (forall x y, Reqb x y = true <-> x = y) /\
  (forall x y, Rltb x y = true <-> x < y) /\
  (forall x y z, x < y -> y < z -> x < z) /\
  (forall x, ~ x < x) /\
  (forall x y, x = y \/ x < y \/ y < x).
Proof.
  split; [|split; [|split; [|split]]].
  - intros x y. unfold Reqb. destruct (Req_dec_T x y); split; auto; discriminate.
  - intros x y. unfold Rltb. destruct (Rlt_dec x y); split; auto; discriminate.
  - intros x y z. lra.
  - intros x. lra.
  - intros x y. lra.
Qed.

Lemma Rsum_ones {A} (l : list A) :
  Rsum (map (fun _ => 1) l) = INR (List.length l).
Proof.
  induction l as [|x l IH]; [reflexivity|].
  cbn [map Rsum List.length]. rewrite S_INR, IH. lra.
Qed.

(** The sizes of the groups add up to the number of rows. *)
Lemma groupby_size_total {Row} (key : Row -> R) (df : list Row) :
  list_sum (map snd (groupby Reqb Rltb key key (@List.length R) df))
  = List.length df.
Proof.
  destruct Rltb_order as (Heq & Hlt & Htrans & Hirrefl & Htotal).
  apply INR_eq. rewrite <- Rsum_ones.
  rewrite <- (Rsum_groups Reqb Heq key (fun _ => 1)
                (sorted_labels Reqb Rltb (map key df)) df).
  - unfold groupby. rewrite map_map. cbn [snd].
    induction (sorted_labels Reqb Rltb (map key df)) as [|k keys IH];
      [reflexivity|].
    cbn [map Rsum]. rewrite list_sum_cons, plus_INR, IH.
    rewrite length_map, <- Rsum_ones. reflexivity.
  - apply (sorted_labels_spec Reqb Rltb Rlt Heq Hlt Htrans Hirrefl Htotal).
  - intros r Hr.
    apply (sorted_labels_spec Reqb Rltb Rlt Heq Hlt Htrans Hirrefl Htotal).
    apply in_map. exact Hr.
Qed.

Lemma level_name_Some (level : R) (name : string) :
  level_name level = Some name <->
  (level = 1 /\ name = "Minimal") \/ (level = 2 /\ name = "Stressed") \/
  (level = 3 /\ name = "Crisis") \/ (level = 4 /\ name = "Emergency").
Proof.
  unfold level_name.
  destruct (Req_dec_T level 1) as [E1|N1];
    [|destruct (Req_dec_T level 2) as [E2|N2];
      [|destruct (Req_dec_T level 3) as [E3|N3];
        [|destruct (Req_dec_T level 4) as [E4|N4]]]].
  - split.
    + intros H. injection H as <-. auto.
    + intros [[_ ->]|[[H _]|[[H _]|[H _]]]]; [reflexivity|lra|lra|lra].
  - split.
    + intros H. injection H as <-. auto.
    + intros [[H _]|[[_ ->]|[[H _]|[H _]]]]; [lra|reflexivity|lra|lra].
  - split.
    + intros H. injection H as <-. auto.
    + intros [[H _]|[[H _]|[[_ ->]|[H _]]]]; [lra|lra|reflexivity|lra].
  - split.
    + intros H. injection H as <-. auto 6.
    + intros [[H _]|[[H _]|[[H _]|[_ ->]]]]; [lra|lra|lra|reflexivity].
  - split; [discriminate|].
    intros [[H _]|[[H _]|[[H _]|[H _]]]]; contradiction.
Qed.

Lemma security_counts_rows (security_df : list FoodSecurityRow)
  (c : SecurityCount) :
  In c (security_counts security_df) ->
  Level_Name c = level_name (c_Food_Security_Level c) /\
  Count c
  = List.length
      (filter (fun r => Reqb (Food_Security_Level r) (c_Food_Security_Level c))
         (filter (fun r => Z.eqb (s_Year r) 2023) security_df)) /\
  exists r, In r security_df /\ s_Year r = 2023%Z /\
            Food_Security_Level r = c_Food_Security_Level c.
Proof.
  unfold security_counts, groupby. cbv zeta. rewrite map_map. cbn [fst snd].
  intros H. apply in_map_iff in H as (level & <- & Hl).
  cbn [Level_Name c_Food_Security_Level Count].
  split; [reflexivity|]. split; [apply length_map|].
  apply in_sorted_labels in Hl. apply in_map_iff in Hl as (r & <- & Hr).
  apply filter_In in Hr as [Hr Hy]. apply Z.eqb_eq in Hy. exists r. auto.
Qed.

(** X20. The distribution of the food-security levels of 2023 has one row
    for every distinct level, in strictly ascending order; the counts are
    positive and add up to the number of rows of 2023; a row has a name
    only when its level is exactly 1, 2, 3 or 4, and is NaN otherwise.  On a
    run whose draws lie in [0, 1) the counts add up to 10 and no row is
    named "Emergency". *)
Theorem security_counts_distribution (security_rows : list FoodSecurityRow) :
  ascending Rlt (map c_Food_Security_Level (security_counts security_rows)) /\
  list_sum (map Count (security_counts security_rows))
  = List.length (filter (fun r => Z.eqb (s_Year r) 2023) security_rows) /\
  Forall (fun c =>
            (0 < Count c)%nat /\
            forall name,
              Level_Name c = Some name <->
              (c_Food_Security_Level c = 1 /\ name = "Minimal") \/
              (c_Food_Security_Level c = 2 /\ name = "Stressed") \/
              (c_Food_Security_Level c = 3 /\ name = "Crisis") \/
              (c_Food_Security_Level c = 4 /\ name = "Emergency"))
    (security_counts security_rows) /\
  (forall s,
     Rand.valid s ->
     let counts :=
       security_counts (security_df (Rand.run generate_sdg2_data s)) in
     list_sum (map Count counts) = 10%nat /\
     Forall (fun c => Level_Name c <> Some "Emergency") counts).
Proof.
  destruct Rltb_order as (Heq & Hlt & Htrans & Hirrefl & Htotal).
  assert (forall df,
            list_sum (map Count (security_counts df))
            = List.length (filter (fun r => Z.eqb (s_Year r) 2023) df))
    as Hsum.
  { intros df. unfold security_counts. cbv zeta. rewrite map_map.
    cbn [Count]. apply groupby_size_total. }
  split; [|split; [apply Hsum|split]].
  - unfold security_counts. cbv zeta. rewrite map_map.
    cbn [c_Food_Security_Level]. rewrite groupby_keys.
    apply (sorted_labels_spec Reqb Rltb Rlt Heq Hlt Htrans Hirrefl Htotal).
  - apply Forall_forall. intros c Hc.
    apply security_counts_rows in Hc as (En & Ec & r & Hr & Hy & Hl).
    split.
    + rewrite Ec.
      assert (In r (filter (fun r => Reqb (Food_Security_Level r)
                                      (c_Food_Security_Level c))
                      (filter (fun r => Z.eqb (s_Year r) 2023) security_rows)))
        as Hin.
      { apply filter_In. split; [|apply Heq; exact Hl].
        apply filter_In. split; [exact Hr|apply Z.eqb_eq; exact Hy]. }
      destruct (filter _ (filter _ security_rows)); [contradiction|].
      cbn [List.length]. lia.
    + intros name. rewrite En. apply level_name_Some.
  - intros s Hs. cbv zeta. split.
    + rewrite Hsum.
      assert (In 2023%Z years) as Hy by (unfold years; cbn [In]; tauto).
      exact (proj2 (generated_year_counts s 2023 Hy)).
    + destruct (generate_sdg2_data_range s Hs) as [(_ & _ & Hf & _) _].
      apply Forall_forall. intros c Hc.
      apply security_counts_rows in Hc as (En & _ & r & Hr & _ & Hl).
      rewrite En. intros E. apply level_name_Some in E.
      rewrite Forall_forall in Hf. specialize (Hf r Hr). cbv beta in Hf.
      destruct E as [[_ E]|[[_ E]|[[_ E]|[E _]]]]; try discriminate E. lra.
Qed.

Lemma security_counts_distribution_witness :
  Rand.valid (fun _ => 1 / 2) /\
  let counts :=
    security_counts
      (security_df (Rand.run generate_sdg2_data (fun _ => 1 / 2))) in
  list_sum (map Count counts) = 10%nat /\
  Forall (fun c => Level_Name c <> Some "Emergency") counts.
Proof.
  split; [exact valid_half|].
  exact (proj2 (proj2 (proj2 (security_counts_distribution [])))
           (fun _ => 1 / 2) valid_half).
Defined.
